(** * PHWI: the summary report and the CSV log of a stress-test run

    A shallow embedding of [src/app.py]: [format_line], the section
    renderer [append_formatted_section] nested in [write_summary], the
    seven category sections of [write_summary] and [write_csv], followed
    by the properties of the report engine.

    Modelling conventions.
    - A Python [str] is a [string]; one [ascii] stands for one character,
      so [String.length] is Python's [len].
    - A Python [float] is carried by the text [str] gives it, since the
      report only ever displays it; an [int] is a [Z].
    - An exception is a value of [exn]; code that may raise returns a
      [result].  The list [lines] of [write_summary] is threaded through
      the sections explicitly.
    - The collectors of the [stressmon] package are records of their
      accessors; the files on disk are a finite map from path to text. *)

From Stdlib Require Import ZArith Ascii.
From stdpp Require Import base strings list gmap pretty.

Local Open Scope nat_scope.

(** ** Values, exceptions *)

(** A numeric statistic: an [int], or a [float] given by its [str] text. *)
Inductive number : Type :=
  | NInt (z : Z)
  | NFloat (text : string).

(** What a cell of a row can hold. *)
Inductive value : Type :=
  | VStr (s : string)
  | VNum (n : number)
  | VNone.

(** The justification marks ['<'], ['>'] and ['^']. *)
Inductive just : Type := JLeft | JRight | JCenter.

Inductive exn : Type :=
  | IndexError          (* str.format: replacement index out of range *)
  | TypeError           (* unsupported format string passed to NoneType *)
  | UnboundLocalError.  (* a local read before any assignment *)

Inductive result (A : Type) : Type :=
  | Ok (a : A)
  | Raise (e : exn).
Arguments Ok {A} a.
Arguments Raise {A} e.

Definition bind {A B} (r : result A) (k : A -> result B) : result B :=
  match r with
  | Ok a => k a
  | Raise e => Raise e
  end.

Notation "'let!' x ':=' r 'in' k" := (bind r (fun x => k))
  (at level 10, x pattern, r at level 100, k at level 200,
   format "'[v' 'let!'  x  ':='  r  'in' '/' k ']'").

(** [for x in xs: body], the loop state threaded through [body]. *)
Fixpoint for_each {A S} (xs : list A) (body : A -> S -> result S) (s : S)
  : result S :=
  match xs with
  | [] => Ok s
  | x :: xs' => let! s' := body x s in for_each xs' body s'
  end.

(** ** Text *)

Definition nl : string := String "010"%char "".

Fixpoint spaces (n : nat) : string :=
  match n with
  | 0 => ""
  | S n' => String " "%char (spaces n')
  end.

(** ["".join(parts)] *)
Definition join (parts : list string) : string :=
  foldr String.append "" parts.

(** [str(x)] of a number. *)
Definition str_number (n : number) : string :=
  match n with
  | NInt z => pretty z
  | NFloat text => text
  end.

(** The text a value is displayed with; [None] has none in a field. *)
Definition display (v : value) : option string :=
  match v with
  | VStr s => Some s
  | VNum n => Some (str_number n)
  | VNone => None
  end.

(** ** format_line *)

(** Fill a text to a field of [width] characters; a text that is already
    that long is left as it is.  Centring puts the odd space on the right. *)
Definition pad (j : just) (width : nat) (s : string) : string :=
  let n := width - String.length s in
  match j with
  | JLeft => s +:+ spaces n
  | JRight => spaces n +:+ s
  | JCenter => spaces (n / 2) +:+ s +:+ spaces (n - n / 2)
  end.

(** [format(v, just + str(width))]: [None] has no format specification. *)
Definition format_value (j : just) (width : nat) (v : value) : result string :=
  match v with
  | VStr s => Ok (pad j width s)
  | VNum n => Ok (pad j width (str_number n))
  | VNone => Raise TypeError
  end.

(** [str.format] on the unpacked items, for a format string made of the
    automatically numbered fields ["{:" + just + str(width) + "}"], given
    here by their justification and width: the fields take the arguments
    in order, surplus arguments are ignored, a missing one is an
    [IndexError]. *)
Fixpoint str_format (fields : list (just * nat)) (args : list value)
  : result string :=
  match fields with
  | [] => Ok ""
  | (j, width) :: fields' =>
      match args with
      | [] => Raise IndexError
      | v :: args' =>
          let! s := format_value j width v in
          let! rest := str_format fields' args' in
          Ok (s +:+ rest)
      end
  end.

(** The widths are natural numbers and the justifications one of the
    three marks, as the docstring asks; the line format ends in the line
    terminator. *)
Definition format_line (items : list value) (column_widths : list nat)
    (justifications : list just) : result string :=
  let line_format := zip justifications column_widths in
  let! s := str_format line_format items in
  Ok (s +:+ nl).

(** ** The collectors of [stressmon]

    [write_summary] only reads the collectors: it iterates them, which
    yields one key tuple per statistic, and calls their accessors. *)

(** A key tuple; [p0] is [params[0]], [p1] is [params[1]]. *)
Record Params : Type := mkParams {
  p0 : string;
  p1 : string;
  p_rest : list string
}.

(** What every collector offers.  [records] is the order in which
    iterating the collector yields its keys.  [get_current] is [None] for
    a statistic that is only aggregated. *)
Record Monitor : Type := mkMonitor {
  records : list Params;
  is_empty : bool;
  get_label : Params -> string;
  get_current : Params -> option number;
  get_min : Params -> number;
  get_max : Params -> number;
  get_mean : Params -> number
}.

Module CPUFreq.
Record t : Type := mk { base : Monitor; get_model : string }.
End CPUFreq.

Module MemUsage.
Record t : Type := mk { base : Monitor; get_mem_skus : list string }.
End MemUsage.

Module GPUData.
Record t : Type := mk {
  base : Monitor;
  get_driver_version : string;
  get_subven : string -> string -> option string
}.
End GPUData.

Module DriveTemp.
Record t : Type := mk { base : Monitor; get_model : string -> string }.
End DriveTemp.

(** The fields as [write_csv] and [write_summary] read them, that is once
    the caller has set them. *)
Record OutputData : Type := mkOutputData {
  csv_fn : string;
  summary_fn : string;
  run_time : number;
  iterations : Z;
  watts : Monitor;
  mhz : CPUFreq.t;
  ctemps : Monitor;
  fans : Monitor;
  gpus : GPUData.t;
  drives : DriveTemp.t;
  usage : Monitor;
  mem : MemUsage.t;
  data : list value;
  time : string;
  model_name : string
}.

(** ** write_summary: the section renderer *)

Definition row : Type := list value.

Definition append_formatted_section (title : string) (data_rows : list row)
    (headers : row) (col_widths : list nat) (justifications : list just)
    (lines : list string) : result (list string) :=
  match data_rows with
  | [] => Ok lines
  | _ :: _ =>
      let lines := lines ++ [title] in
      let! h := format_line headers col_widths justifications in
      let lines := lines ++ [h] in
      let! lines :=
        for_each data_rows
          (fun row lines =>
             let! l := format_line row col_widths justifications in
             Ok (lines ++ [l]))
          lines in
      Ok (lines ++ [nl])
  end.

(** [current] in a cell: the number, or [None]. *)
Definition cell_of_current (c : option number) : value :=
  match c with
  | Some n => VNum n
  | None => VNone
  end.

(** The row [label, min, max, mean] of the four-column sections. *)
Definition stat_row (m : Monitor) (params : Params) : row :=
  [VStr (get_label m params); VNum (get_min m params);
   VNum (get_max m params); VNum (get_mean m params)].

(** The row [label, current, min, max, mean] of the five-column sections. *)
Definition current_row (m : Monitor) (params : Params) : row :=
  [VStr (get_label m params); cell_of_current (get_current m params);
   VNum (get_min m params); VNum (get_max m params);
   VNum (get_mean m params)].

(** ** write_summary: memory *)

Definition mem_column_widths : list nat := [15; 20; 20; 20].
Definition mem_justifications : list just := [JLeft; JRight; JRight; JRight].

Definition mem_body (mem : Monitor) (params : Params)
    (st : string * list row * row * list string)
  : result (string * list row * row * list string) :=
  let '(mem_type, mem_data_rows, headers, lines) := st in
  let! (mem_type, mem_data_rows, headers, lines) :=
    if bool_decide (mem_type ≠ p0 params) then
      let! (mem_data_rows, lines) :=
        match mem_data_rows with
        | [] => Ok (mem_data_rows, lines)
        | _ :: _ =>
            let! lines :=
              append_formatted_section "" mem_data_rows headers
                mem_column_widths mem_justifications lines in
            Ok ([], lines)
        end in
      let mem_type := p0 params in
      let headers := [VStr mem_type; VStr "Min"; VStr "Max"; VStr "Mean"] in
      Ok (mem_type, mem_data_rows, headers, lines)
    else Ok (mem_type, mem_data_rows, headers, lines) in
  Ok (mem_type, mem_data_rows ++ [stat_row mem params], headers, lines).

Definition mem_section (mem : Monitor) (lines : list string)
  : result (list string) :=
  let! (mem_type, mem_data_rows, headers, lines) :=
    for_each (records mem) (mem_body mem) ("", [], [], lines) in
  append_formatted_section "" mem_data_rows headers
    mem_column_widths mem_justifications lines.

(** ** write_summary: CPU frequency and usage *)

Definition cpu_headers : row :=
  [VStr "Core"; VStr "Min %:Mhz"; VStr "Max %:Mhz"; VStr "Mean %:Mhz"].
Definition cpu_column_widths : list nat := [15; 15; 15; 15].
Definition cpu_justifications : list just := [JLeft; JRight; JRight; JRight].

(** The cell [f"{u:>4}:{f:>5}"]. *)
Definition usage_freq (u f : number) : string :=
  pad JRight 4 (str_number u) +:+ ":" +:+ pad JRight 5 (str_number f).

Definition cpu_row (mhz usage : Monitor) (pr : Params * Params) : row :=
  let '(mhz_params, usage_params) := pr in
  [VStr (get_label mhz mhz_params);
   VStr (usage_freq (get_min usage usage_params) (get_min mhz mhz_params));
   VStr (usage_freq (get_max usage usage_params) (get_max mhz mhz_params));
   VStr (usage_freq (get_mean usage usage_params) (get_mean mhz mhz_params))].

Definition cpu_data_rows (mhz usage : Monitor) : list row :=
  foldl (fun cpu_data_rows pr => cpu_data_rows ++ [cpu_row mhz usage pr])
    [] (zip (records mhz) (records usage)).

Definition cpu_section (mhz usage : Monitor) (lines : list string)
  : result (list string) :=
  append_formatted_section "" (cpu_data_rows mhz usage) cpu_headers
    cpu_column_widths cpu_justifications lines.

(** ** write_summary: CPU temperature, power *)

Definition ctemps_headers : row :=
  [VStr "Core"; VStr "Min C"; VStr "Max C"; VStr "Mean C"].
Definition ctemps_column_widths : list nat := [15; 10; 10; 10].
Definition ctemps_justifications : list just :=
  [JLeft; JRight; JRight; JRight].

Definition ctemps_section (ctemps : Monitor) (lines : list string)
  : result (list string) :=
  if negb (is_empty ctemps) then
    let ctemps_data_rows :=
      foldl (fun rows params => rows ++ [stat_row ctemps params])
        [] (records ctemps) in
    append_formatted_section "" ctemps_data_rows ctemps_headers
      ctemps_column_widths ctemps_justifications lines
  else Ok lines.

Definition watts_headers : row :=
  [VStr "CPU"; VStr "Min W"; VStr "Max W"; VStr "Mean W"].
Definition watts_column_widths : list nat := [10; 10; 10; 10].
Definition watts_justifications : list just :=
  [JLeft; JRight; JRight; JRight].

Definition watts_section (watts : Monitor) (lines : list string)
  : result (list string) :=
  if negb (is_empty watts) then
    let watts_data_rows :=
      foldl (fun rows params => rows ++ [stat_row watts params])
        [] (records watts) in
    append_formatted_section "" watts_data_rows watts_headers
      watts_column_widths watts_justifications lines
  else Ok lines.

(** ** write_summary: fans *)

Definition fan_headers : row :=
  [VStr "Fan"; VStr "Current(RPM)"; VStr "Min(RPM)"; VStr "Max(RPM)";
   VStr "Mean(RPM)"].
Definition fan_column_widths : list nat := [15; 15; 15; 15; 15].
Definition fan_justifications : list just :=
  [JLeft; JRight; JRight; JRight; JRight].

Definition fans_body (fans : Monitor) (params : Params)
    (st : string * list row * list string)
  : result (string * list row * list string) :=
  let '(driver, fan_data_rows, lines) := st in
  let! (driver, fan_data_rows, lines) :=
    if bool_decide (driver ≠ p0 params) then
      let! (fan_data_rows, lines) :=
        match fan_data_rows with
        | [] => Ok (fan_data_rows, lines)
        | _ :: _ =>
            let! lines :=
              append_formatted_section driver fan_data_rows fan_headers
                fan_column_widths fan_justifications lines in
            Ok ([], lines)
        end in
      let driver := p0 params in
      Ok (driver, fan_data_rows, lines)
    else Ok (driver, fan_data_rows, lines) in
  Ok (driver, fan_data_rows ++ [current_row fans params], lines).

Definition fans_section (fans : Monitor) (lines : list string)
  : result (list string) :=
  if negb (is_empty fans) then
    let! (driver, fan_data_rows, lines) :=
      for_each (records fans) (fans_body fans) ("", [], lines) in
    append_formatted_section driver fan_data_rows fan_headers
      fan_column_widths fan_justifications lines
  else Ok lines.

(** ** write_summary: GPUs *)

Definition gpu_headers : row :=
  [VStr "Data"; VStr "Current"; VStr "Min"; VStr "Max"; VStr "Mean"].
Definition gpu_column_widths : list nat := [15; 15; 15; 15; 15].
Definition gpu_justifications : list just :=
  [JLeft; JRight; JRight; JRight; JRight].

(** [f"SubSystem: {subsystem}" if subsystem else ""]: both [None] and the
    empty text are false. *)
Definition subsystem_info (subsystem : option string) : string :=
  match subsystem with
  | None => ""
  | Some "" => ""
  | Some s => "SubSystem: " +:+ s
  end.

(** The one-cell row put before the statistics of a device. *)
Definition gpu_name_row (gpus : GPUData.t) (vendor name : string) : row :=
  [VStr ("GPU: " +:+ name +:+ nl +:+
         subsystem_info (GPUData.get_subven gpus vendor name))].

(** The state of the loop is [vendor], [name], [gpu_data_rows], the local
    [driver_version] ([None] while it is unbound, that is before the first
    iteration) and [lines]. *)
Definition gpus_body (gpus : GPUData.t) (params : Params)
    (st : string * string * list row * option string * list string)
  : result (string * string * list row * option string * list string) :=
  let '(vendor, name, gpu_data_rows, _, lines) := st in
  let m := GPUData.base gpus in
  let driver_version := "" in
  let! (vendor, gpu_data_rows, driver_version, lines) :=
    if bool_decide (vendor ≠ p0 params) then
      let! (gpu_data_rows, lines) :=
        match gpu_data_rows with
        | [] => Ok (gpu_data_rows, lines)
        | _ :: _ =>
            let! lines :=
              append_formatted_section (vendor +:+ driver_version)
                gpu_data_rows gpu_headers gpu_column_widths
                gpu_justifications lines in
            Ok ([], lines)
        end in
      let vendor := p0 params in
      let driver_version :=
        if bool_decide (vendor = "nvidia")
        then " - " +:+ GPUData.get_driver_version gpus
        else driver_version in
      Ok (vendor, gpu_data_rows, driver_version, lines)
    else Ok (vendor, gpu_data_rows, driver_version, lines) in
  let '(name, gpu_data_rows) :=
    if bool_decide (name ≠ p1 params) then
      let name := p1 params in
      (name, gpu_data_rows ++ [gpu_name_row gpus vendor name])
    else (name, gpu_data_rows) in
  let gpu_data_rows :=
    match get_current m params with
    | Some _ => gpu_data_rows ++ [current_row m params]
    | None => gpu_data_rows
    end in
  Ok (vendor, name, gpu_data_rows, Some driver_version, lines).

Definition gpus_section (gpus : GPUData.t) (lines : list string)
  : result (list string) :=
  if negb (is_empty (GPUData.base gpus)) then
    let! (vendor, name, gpu_data_rows, driver_version, lines) :=
      for_each (records (GPUData.base gpus)) (gpus_body gpus)
        ("", "", [], None, lines) in
    match driver_version with
    | None => Raise UnboundLocalError
    | Some driver_version =>
        append_formatted_section (vendor +:+ driver_version) gpu_data_rows
          gpu_headers gpu_column_widths gpu_justifications lines
    end
  else Ok lines.

(** What follows the loop of [gpus_section], as a function of the state
    the loop ends in. *)
Definition gpus_final
    (st : string * string * list row * option string * list string)
  : result (list string) :=
  let '(vendor, name, gpu_data_rows, driver_version, lines) := st in
  match driver_version with
  | None => Raise UnboundLocalError
  | Some driver_version =>
      append_formatted_section (vendor +:+ driver_version) gpu_data_rows
        gpu_headers gpu_column_widths gpu_justifications lines
  end.

(** ** write_summary: drives *)

Definition drive_headers : row :=
  [VStr "Data"; VStr "Current"; VStr "Min"; VStr "Max"; VStr "Mean"].
Definition drive_column_widths : list nat := [15; 15; 15; 15; 15].
Definition drive_justifications : list just :=
  [JLeft; JRight; JRight; JRight; JRight].

(** [f"Device: {drive}\nDrive Model: {drives.get_model(drive)}"] *)
Definition drive_title (drives : DriveTemp.t) (drive : string) : string :=
  "Device: " +:+ drive +:+ nl +:+
  "Drive Model: " +:+ DriveTemp.get_model drives drive.

Definition drives_body (drives : DriveTemp.t) (params : Params)
    (st : string * list row * list string)
  : result (string * list row * list string) :=
  let '(drive, drive_data_rows, lines) := st in
  let m := DriveTemp.base drives in
  let! (drive, drive_data_rows, lines) :=
    if bool_decide (drive ≠ p0 params) then
      let! (drive_data_rows, lines) :=
        match drive_data_rows with
        | [] => Ok (drive_data_rows, lines)
        | _ :: _ =>
            let! lines :=
              append_formatted_section (drive_title drives drive)
                drive_data_rows drive_headers drive_column_widths
                drive_justifications lines in
            Ok ([], lines)
        end in
      let drive := p0 params in
      Ok (drive, drive_data_rows, lines)
    else Ok (drive, drive_data_rows, lines) in
  let drive_data_rows :=
    match get_current m params with
    | Some _ => drive_data_rows ++ [current_row m params]
    | None => drive_data_rows
    end in
  Ok (drive, drive_data_rows, lines).

Definition drives_section (drives : DriveTemp.t) (lines : list string)
  : result (list string) :=
  if negb (is_empty (DriveTemp.base drives)) then
    let! (drive, drive_data_rows, lines) :=
      for_each (records (DriveTemp.base drives)) (drives_body drives)
        ("", [], lines) in
    append_formatted_section (drive_title drives drive) drive_data_rows
      drive_headers drive_column_widths drive_justifications lines
  else Ok lines.

(** ** write_summary: the document *)

(** The lines appended before the first section. *)
Definition preamble (output_data : OutputData) : list string :=
  let lines := [] in
  let lines := lines ++
    ["Summary:" +:+ nl +:+ "Model: " +:+ model_name output_data +:+ nl +:+
     "Start Time: " +:+ time output_data +:+ nl] in
  let lines := lines ++
    ["Runtime: " +:+ str_number (run_time output_data) +:+ nl +:+
     "CPU: " +:+ CPUFreq.get_model (mhz output_data) +:+ nl] in
  let lines := lines ++ ["Memory SKUs:" +:+ nl] in
  foldl (fun lines sku => lines ++ ["DIMM: " +:+ sku +:+ nl])
    lines (MemUsage.get_mem_skus (mem output_data)).

(** [lines] when the file is opened. *)
Definition summary_lines (output_data : OutputData) : result (list string) :=
  let lines := preamble output_data in
  let! lines := mem_section (MemUsage.base (mem output_data)) lines in
  let! lines :=
    cpu_section (CPUFreq.base (mhz output_data)) (usage output_data) lines in
  let! lines := ctemps_section (ctemps output_data) lines in
  let! lines := watts_section (watts output_data) lines in
  let! lines := fans_section (fans output_data) lines in
  let! lines := gpus_section (gpus output_data) lines in
  let! lines := drives_section (drives output_data) lines in
  Ok lines.

(** The files: path to content.  Mode ['w'] replaces the content. *)
Definition write_summary (output_data : OutputData)
    (fs : gmap string string) : result (gmap string string) :=
  let! lines := summary_lines output_data in
  Ok (<[summary_fn output_data := join lines]> fs).

(** ** write_csv *)

Section CSV.

(** The text that [csv.writer(outfile).writerow(row)] writes for a row;
    the [csv] module is the standard library's. *)
Variable writerow : list value -> string.

(** Mode ['a'] creates a missing file and writes at the end. *)
Definition write_csv (output_data : OutputData)
    (fs : gmap string string) : gmap string string :=
  let outfile := default "" (fs !! csv_fn output_data) in
  <[csv_fn output_data := outfile +:+ writerow (data output_data)]> fs.

(** One call per sampling iteration, in order. *)
Definition csv_log (calls : list OutputData) (fs : gmap string string)
  : gmap string string :=
  foldl (fun fs output_data => write_csv output_data fs) fs calls.

End CSV.

(** * The report as the specification describes it

    The definitions below do not come from the code: they say what the
    report is in terms of runs of records and groups of rows, and are
    compared with the loops of [write_summary] in the theorems. *)

(** The maximal runs of neighbours with the same key, in order. *)
Fixpoint runs {A} (key : A -> string) (xs : list A) : list (list A) :=
  match xs with
  | [] => []
  | x :: xs' =>
      match runs key xs' with
      | (y :: r) :: rs =>
          if bool_decide (key x = key y)
          then (x :: y :: r) :: rs
          else [x] :: (y :: r) :: rs
      | _ => [[x]]
      end
  end.

(** The key a run stands for. *)
Definition run_key (r : list Params) : string :=
  match r with
  | [] => ""
  | x :: _ => p0 x
  end.

(** One group handed to the section renderer. *)
Record group : Type := mkGroup {
  g_title : string;
  g_headers : row;
  g_rows : list row
}.

(** A formatted line per row. *)
Fixpoint format_rows (data_rows : list row) (col_widths : list nat)
    (justifications : list just) : result (list string) :=
  match data_rows with
  | [] => Ok []
  | row :: data_rows' =>
      let! l := format_line row col_widths justifications in
      let! ls := format_rows data_rows' col_widths justifications in
      Ok (l :: ls)
  end.

(** The lines of one section: title, header line, a line per row, blank. *)
Definition section_lines (title : string) (data_rows : list row)
    (headers : row) (col_widths : list nat) (justifications : list just)
  : result (list string) :=
  let! h := format_line headers col_widths justifications in
  let! body := format_rows data_rows col_widths justifications in
  Ok (title :: h :: body ++ [nl]).

(** Rendering the groups one after the other. *)
Definition emit_groups (col_widths : list nat) (justifications : list just)
    (gs : list group) (lines : list string) : result (list string) :=
  for_each gs
    (fun g lines =>
       append_formatted_section (g_title g) (g_rows g) (g_headers g)
         col_widths justifications lines)
    lines.

(** The groups that are rendered: the renderer skips a group without rows. *)
Definition emitted (gs : list group) : list group :=
  filter (fun g => g_rows g <> []) gs.

(** The groups of a grouped category: one per run; the title and the
    headers come from the key of the run, the rows from its records (a
    record gives one row, or none).  The first group keeps the headers
    [h0] the loop starts with when its key is the empty text the loop
    starts with. *)
Definition make_group (title_of : string -> string) (headers : row)
    (rows_of : Params -> list row) (r : list Params) : group :=
  {| g_title := title_of (run_key r);
     g_headers := headers;
     g_rows := flat_map rows_of r |}.

(** The groups of the runs [rs], the first one with the headers [h]. *)
Definition groups_from (title_of : string -> string)
    (hdr_of : string -> row) (rows_of : Params -> list row) (h : row)
    (rs : list (list Params)) : list group :=
  match rs with
  | [] => []
  | r :: rs' =>
      make_group title_of h rows_of r
      :: map (fun r => make_group title_of (hdr_of (run_key r)) rows_of r)
           rs'
  end.

Definition groups_of (title_of : string -> string) (hdr_of : string -> row)
    (rows_of : Params -> list row) (h0 : row) (rs : list (list Params))
  : list group :=
  match rs with
  | [] => []
  | r :: _ =>
      groups_from title_of hdr_of rows_of
        (if bool_decide (run_key r = "") then h0 else hdr_of (run_key r)) rs
  end.

(** Memory: a group per run, headed by the memory type. *)
Definition mem_group (mem : Monitor) (r : list Params) : group :=
  {| g_title := "";
     g_headers := [VStr (run_key r); VStr "Min"; VStr "Max"; VStr "Mean"];
     g_rows := map (stat_row mem) r |}.

(** The first group keeps the initial, empty header list when its memory
    type is the empty text the loop starts from. *)
Definition mem_groups (mem : Monitor) : list group :=
  match runs p0 (records mem) with
  | [] => []
  | r :: rs =>
      (if bool_decide (run_key r = "")
       then {| g_title := ""; g_headers := [];
               g_rows := map (stat_row mem) r |}
       else mem_group mem r)
      :: map (mem_group mem) rs
  end.

(** Fans: a group per run, titled by the driver. *)
Definition fan_group (fans : Monitor) (r : list Params) : group :=
  {| g_title := run_key r;
     g_headers := fan_headers;
     g_rows := map (current_row fans) r |}.

Definition fan_groups (fans : Monitor) : list group :=
  map (fan_group fans) (runs p0 (records fans)).

(** The records of a run that have a current value. *)
Definition sampled (m : Monitor) (r : list Params) : list Params :=
  filter (fun params => is_Some (get_current m params)) r.

(** Drives: a group per run, with the rows of the sampled records. *)
Definition drive_group (drives : DriveTemp.t) (r : list Params) : group :=
  {| g_title := drive_title drives (run_key r);
     g_headers := drive_headers;
     g_rows := map (current_row (DriveTemp.base drives))
                 (sampled (DriveTemp.base drives) r) |}.

Definition drive_groups (drives : DriveTemp.t) : list group :=
  map (drive_group drives) (runs p0 (records (DriveTemp.base drives))).

(** GPUs: the rows of a run.  [name] is the device of the record before
    the run; a record of another device is preceded by the row that names
    its device, and a record that is only aggregated has no row. *)
Fixpoint gpu_run_rows (gpus : GPUData.t) (vendor name : string)
    (r : list Params) : list row :=
  match r with
  | [] => []
  | params :: r' =>
      (if bool_decide (name ≠ p1 params)
       then [gpu_name_row gpus vendor (p1 params)] else [])
      ++ match get_current (GPUData.base gpus) params with
         | Some _ => [current_row (GPUData.base gpus) params]
         | None => []
         end
      ++ gpu_run_rows gpus vendor (p1 params) r'
  end.

(** The device of the last record of a run. *)
Definition last_name (name : string) (r : list Params) : string :=
  match last r with
  | Some params => p1 params
  | None => name
  end.

(** What follows the vendor in the title of the last group: the driver
    version when that group is a single record of the vendor nvidia. *)
Definition gpu_last_suffix (gpus : GPUData.t) (r : list Params) : string :=
  match r with
  | [params] =>
      if bool_decide (p0 params = "nvidia")
      then " - " +:+ GPUData.get_driver_version gpus
      else ""
  | _ => ""
  end.

Fixpoint gpu_groups_from (gpus : GPUData.t) (name : string)
    (rs : list (list Params)) : list group :=
  match rs with
  | [] => []
  | r :: rs' =>
      {| g_title :=
           run_key r +:+
           match rs' with
           | [] => gpu_last_suffix gpus r
           | _ :: _ => ""
           end;
         g_headers := gpu_headers;
         g_rows := gpu_run_rows gpus (run_key r) name r |}
      :: gpu_groups_from gpus (last_name name r) rs'
  end.

Definition gpu_groups (gpus : GPUData.t) : list group :=
  gpu_groups_from gpus "" (runs p0 (records (GPUData.base gpus))).

(** The rows of statistics among the rows of the GPU groups: the rows
    that name a device have a single cell. *)
Definition stat_rows (rows : list row) : list row :=
  filter (fun r : row => length r = 5) rows.

(** [secs] are the sections of the groups [gs], one for one. *)
Definition sections_of (col_widths : list nat) (justifications : list just)
    (gs : list group) (secs : list (list string)) : Prop :=
  Forall2
    (fun g sec =>
       section_lines (g_title g) (g_rows g) (g_headers g) col_widths
         justifications = Ok sec)
    gs secs.

(** * Sample collectors for the worked examples *)

(** A key whose statistic is sampled live, and one that is only
    aggregated. *)
Definition sample_key (k0 k1 label : string) : Params :=
  mkParams k0 k1 [label].
Definition aggregate_key (k0 k1 label : string) : Params :=
  mkParams k0 k1 [label; "aggregate"].

Definition sample_monitor (recs : list Params) (empty : bool) : Monitor :=
  {| records := recs;
     is_empty := empty;
     get_label := fun params => default "" (head (p_rest params));
     get_current := fun params =>
       match p_rest params with
       | [_] => Some (NInt 1200)
       | _ => None
       end;
     get_min := fun _ => NInt 900;
     get_max := fun _ => NInt 1500;
     get_mean := fun _ => NFloat "1187.5" |}.

Definition sample_gpus (recs : list Params) (empty : bool) : GPUData.t :=
  GPUData.mk (sample_monitor recs empty) "535.183"
    (fun vendor name => Some "ASUSTeK").

Definition sample_drives (recs : list Params) (empty : bool) : DriveTemp.t :=
  DriveTemp.mk (sample_monitor recs empty) (fun drive => "WD Black").

(** A row encoder for the worked examples: the display texts separated by
    commas, an empty field for [None], and the line terminator. *)
Definition sample_writerow (r : list value) : string :=
  match r with
  | [] => nl
  | v :: vs =>
      foldl (fun s v => s +:+ "," +:+ default "" (display v))
        (default "" (display v)) vs +:+ nl
  end.

Definition sample_output_data (fn : string) (values : list value)
  : OutputData :=
  {| csv_fn := fn;
     summary_fn := "summary.txt";
     run_time := NFloat "60.0";
     iterations := 12;
     watts := sample_monitor [] true;
     mhz := CPUFreq.mk (sample_monitor [] false) "Ryzen 9";
     ctemps := sample_monitor [] true;
     fans := sample_monitor [] true;
     gpus := sample_gpus [] true;
     drives := sample_drives [] true;
     usage := sample_monitor [] false;
     mem := MemUsage.mk (sample_monitor [] false) ["KF556C40"];
     data := values;
     time := "2024-07-30 12:00";
     model_name := "oryp11" |}.

(** A machine with two memory types, two fan drivers, one GPU and two
    drives, the second of which has no live temperature. *)
Definition sample_mem : Monitor :=
  sample_monitor [sample_key "DDR5-A" "" "ch0"; sample_key "DDR5-A" "" "ch1";
                  sample_key "DDR5-B" "" "ch2"] false.

Definition sample_fans : Monitor :=
  sample_monitor [sample_key "nct6775" "" "fan1";
                  sample_key "nct6775" "" "fan2";
                  sample_key "amdgpu" "" "fan1"] false.

Definition sample_gpu : GPUData.t :=
  sample_gpus [sample_key "nvidia" "RTX 4070" "temperature";
               sample_key "nvidia" "RTX 4070" "power"] false.

Definition sample_disks : DriveTemp.t :=
  sample_drives [sample_key "sda" "" "temperature";
                 aggregate_key "sdb" "" "temperature"] false.

(** The report of that machine, and of a machine on which every optional
    category is flagged empty. *)
Definition sample_report : OutputData :=
  {| csv_fn := "log.csv";
     summary_fn := "summary.txt";
     run_time := NFloat "60.0";
     iterations := 12;
     watts := sample_monitor [sample_key "" "" "Package id 0"] false;
     mhz := CPUFreq.mk (sample_monitor [sample_key "" "" "Core 0"] false)
              "Ryzen 9";
     ctemps := sample_monitor [sample_key "" "" "Core 0"] false;
     fans := sample_fans;
     gpus := sample_gpu;
     drives := sample_disks;
     usage := sample_monitor [sample_key "" "" "cpu0"] false;
     mem := MemUsage.mk sample_mem ["KF556C40"; "KF556C40"];
     data := [];
     time := "2024-07-30 12:00";
     model_name := "oryp11" |}.

(** A GPU whose statistics carry no device name. *)
Definition sample_unnamed_gpu : GPUData.t :=
  sample_gpus [sample_key "nvidia" "" "temperature";
               sample_key "nvidia" "" "power"] false.

(** A row that [format_line] accepts: an item for every field, and no
    [None] among the items. *)
Definition row_fits (col_widths : list nat) (justifications : list just)
    (r : row) : Prop :=
  Nat.min (length col_widths) (length justifications) <= length r /\
  Forall (fun v => is_Some (display v)) r.

(** * Notions for the further properties of the code *)

(** The number of line terminators in a text. *)
Fixpoint count_nl (s : string) : nat :=
  match s with
  | "" => 0
  | String c s' => (if Ascii.eqb c "010" then 1 else 0) + count_nl s'
  end.

(** The number of fields of a line: [zip] stops at the shorter list. *)
Definition field_count (column_widths : list nat)
    (justifications : list just) : nat :=
  Nat.min (length column_widths) (length justifications).

(** A row in which a field takes [None]. *)
Definition row_has_none (col_widths : list nat) (justifications : list just)
    (r : row) : Prop :=
  VNone ∈ take (field_count col_widths justifications) r.

(** The report of a machine whose GPU collector is not flagged empty and
    yields no record. *)
Definition sample_report_idle_gpu : OutputData :=
  {| csv_fn := "log.csv";
     summary_fn := "summary.txt";
     run_time := NFloat "60.0";
     iterations := 12;
     watts := sample_monitor [] true;
     mhz := CPUFreq.mk (sample_monitor [] false) "Ryzen 9";
     ctemps := sample_monitor [] true;
     fans := sample_monitor [] true;
     gpus := sample_gpus [] false;
     drives := sample_drives [] true;
     usage := sample_monitor [] false;
     mem := MemUsage.mk (sample_monitor [] false) [];
     data := [];
     time := "2024-07-30 12:00";
     model_name := "oryp11" |}.

(** The report of the sample machine when its GPU category is flagged
    empty. *)
Definition sample_report_no_gpu : OutputData :=
  {| csv_fn := "log.csv";
     summary_fn := "summary.txt";
     run_time := NFloat "60.0";
     iterations := 12;
     watts := sample_monitor [sample_key "" "" "Package id 0"] false;
     mhz := CPUFreq.mk (sample_monitor [sample_key "" "" "Core 0"] false)
              "Ryzen 9";
     ctemps := sample_monitor [sample_key "" "" "Core 0"] false;
     fans := sample_fans;
     gpus := sample_gpus [] true;
     drives := sample_disks;
     usage := sample_monitor [sample_key "" "" "cpu0"] false;
     mem := MemUsage.mk sample_mem ["KF556C40"; "KF556C40"];
     data := [VStr "log.csv"; VNum (NFloat "60.0")];
     time := "2024-07-30 12:00";
     model_name := "oryp11" |}.

(** * Properties *)

(** ** Text *)

Lemma append_nil_l (s : string) : "" +:+ s = s.
Proof. reflexivity. Qed.

Lemma append_cons (c : ascii) (s t : string) :
  String c s +:+ t = String c (s +:+ t).
Proof. reflexivity. Qed.

Lemma append_nil_r (s : string) : s +:+ "" = s.
Proof.
  induction s as [|c s IH]; [done |].
  by rewrite append_cons, IH.
Qed.

Lemma append_assoc (s1 s2 s3 : string) :
  (s1 +:+ s2) +:+ s3 = s1 +:+ (s2 +:+ s3).
Proof.
  induction s1 as [|c s1 IH]; [done |].
  by rewrite !append_cons, IH.
Qed.

Lemma length_append (s1 s2 : string) :
  String.length (s1 +:+ s2) = String.length s1 + String.length s2.
Proof.
  induction s1 as [|c s1 IH]; [done |].
  rewrite append_cons. simpl. by rewrite IH.
Qed.

Lemma length_spaces (n : nat) : String.length (spaces n) = n.
Proof. induction n as [|n IH]; simpl; [done | by rewrite IH]. Qed.

Lemma join_app (l1 l2 : list string) : join (l1 ++ l2) = join l1 +:+ join l2.
Proof.
  induction l1 as [|s l1 IH]; simpl; [done |].
  by rewrite IH, append_assoc.
Qed.

(** A text at least as long as the field is not padded, and never cut. *)
Lemma pad_ge (j : just) (width : nat) (s : string) :
  width <= String.length s -> pad j width s = s.
Proof.
  intros Hle. unfold pad.
  replace (width - String.length s) with 0 by lia.
  destruct j; simpl; by rewrite ?append_nil_l, ?append_nil_r.
Qed.

Lemma pad_length (j : just) (width : nat) (s : string) :
  String.length (pad j width s) = Nat.max width (String.length s).
Proof.
  unfold pad. destruct j; rewrite ?length_append, ?length_spaces; try lia.
  assert (Hdiv : (width - String.length s) / 2 <= width - String.length s)
    by (apply Nat.Div0.div_le_upper_bound; lia).
  lia.
Qed.

Lemma format_value_display (j : just) (width : nat) (v : value) :
  format_value j width v =
  match display v with
  | Some text => Ok (pad j width text)
  | None => Raise TypeError
  end.
Proof. by destruct v. Qed.

(** ** The section renderer *)

Lemma bind_assoc {A B C} (r : result A) (f : A -> result B)
    (g : B -> result C) :
  bind (bind r f) g = bind r (fun a => bind (f a) g).
Proof. by destruct r. Qed.

Lemma bind_ok {A} (r : result A) : bind r Ok = r.
Proof. by destruct r. Qed.

(** The loop over the rows appends the formatted rows, or raises. *)
Lemma for_each_rows (data_rows : list row) (col_widths : list nat)
    (justifications : list just) (lines : list string) :
  for_each data_rows
    (fun row lines =>
       let! l := format_line row col_widths justifications in
       Ok (lines ++ [l]))
    lines =
  (let! body := format_rows data_rows col_widths justifications in
   Ok (lines ++ body)).
Proof.
  revert lines. induction data_rows as [|r rs IH]; intros lines; simpl.
  - by rewrite app_nil_r.
  - destruct (format_line r col_widths justifications) as [l|e]; simpl;
      [| done].
    rewrite IH.
    destruct (format_rows rs col_widths justifications) as [ls|e]; simpl;
      [| done].
    by rewrite <- app_assoc.
Qed.

(** What a call of the renderer appends to [lines]. *)
Lemma append_formatted_section_lines (title : string) (data_rows : list row)
    (headers : row) (col_widths : list nat) (justifications : list just)
    (lines : list string) :
  append_formatted_section title data_rows headers col_widths justifications
    lines =
  match data_rows with
  | [] => Ok lines
  | _ :: _ =>
      let! sec :=
        section_lines title data_rows headers col_widths justifications in
      Ok (lines ++ sec)
  end.
Proof.
  unfold append_formatted_section, section_lines.
  destruct data_rows as [|r rs]; [done |].
  destruct (format_line headers col_widths justifications) as [h|e];
    cbn [bind]; [| done].
  rewrite for_each_rows, bind_assoc. simpl.
  destruct (format_line r col_widths justifications) as [l|e]; simpl;
    [| done].
  destruct (format_rows rs col_widths justifications) as [ls|e]; simpl;
    [| done].
  f_equal. by rewrite <- !app_assoc.
Qed.

Lemma format_rows_length (data_rows : list row) (col_widths : list nat)
    (justifications : list just) (body : list string) :
  format_rows data_rows col_widths justifications = Ok body ->
  length body = length data_rows.
Proof.
  revert body. induction data_rows as [|r rs IH]; intros body; simpl.
  - by intros [= <-].
  - destruct (format_line r col_widths justifications) as [l|e]; simpl;
      [| done].
    destruct (format_rows rs col_widths justifications) as [ls|e]; simpl;
      [| done].
    intros [= <-]. simpl. f_equal. by apply IH.
Qed.

(** ** The line formatter *)

(** A line is the concatenation of one cell per field; each cell is
    the display text of the item at its position, filled to the width. *)
Lemma str_format_cells (fields : list (just * nat)) (args : list value)
    (s : string) :
  str_format fields args = Ok s ->
  exists cells : list string,
    s = join cells /\
    length cells = length fields /\
    forall (i : nat) (cell : string),
      cells !! i = Some cell ->
      exists j width v text,
        fields !! i = Some (j, width) /\ args !! i = Some v /\
        display v = Some text /\ cell = pad j width text.
Proof.
  revert args s.
  induction fields as [|[j width] fields IH]; intros args s; simpl.
  - intros [= <-]. exists []. split; [done |]. split; [done |].
    intros i cell Hi. by rewrite lookup_nil in Hi.
  - destruct args as [|v args]; [done |].
    rewrite format_value_display.
    destruct (display v) as [text|] eqn:Hv; simpl; [| done].
    destruct (str_format fields args) as [rest|e] eqn:Hrest; simpl;
      [| done].
    intros [= <-].
    destruct (IH args rest Hrest) as (cells & -> & Hlen & Hcells).
    exists (pad j width text :: cells).
    split; [done |]. split; [simpl; by rewrite Hlen |].
    intros [|i] cell Hi; simpl in *.
    + injection Hi as <-. by exists j, width, v, text.
    + by apply Hcells.
Qed.

(** Enough printable items: a line is returned. *)
Lemma str_format_ok (fields : list (just * nat)) (args : list value) :
  length fields <= length args ->
  Forall (fun v => is_Some (display v)) args ->
  exists s, str_format fields args = Ok s.
Proof.
  revert args. induction fields as [|[j width] fields IH]; intros args;
    simpl.
  - by exists "".
  - destruct args as [|v args]; simpl; [lia |].
    intros Hlen Hall. apply Forall_cons in Hall as [[text Hv] Hall].
    rewrite format_value_display, Hv. simpl.
    destruct (IH args) as [rest ->]; [lia | done |]. simpl.
    by eexists.
Qed.

(** Fewer items than fields: the field after the last item has no item. *)
Lemma str_format_short (fields : list (just * nat)) (args : list value) :
  length args < length fields ->
  Forall (fun v => is_Some (display v)) args ->
  str_format fields args = Raise IndexError.
Proof.
  revert args. induction fields as [|[j width] fields IH]; intros args;
    simpl; [lia |].
  destruct args as [|v args]; simpl; [done |].
  intros Hlen Hall. apply Forall_cons in Hall as [[text Hv] Hall].
  rewrite format_value_display, Hv. simpl.
  rewrite IH; [done | lia | done].
Qed.

(** Items beyond the last field are not looked at. *)
Lemma str_format_surplus (fields : list (just * nat)) (args : list value) :
  str_format fields args = str_format fields (take (length fields) args).
Proof.
  revert args. induction fields as [|[j width] fields IH]; intros args;
    simpl; [done |].
  destruct args as [|v args]; simpl; [done |].
  by rewrite <- IH.
Qed.

(** The shorter of the widths and the justifications decides the number
    of fields. *)
Lemma format_line_truncates (items : list value) (column_widths : list nat)
    (justifications : list just) :
  let n := Nat.min (length column_widths) (length justifications) in
  format_line items column_widths justifications =
  format_line (take n items) (take n column_widths) (take n justifications).
Proof.
  intros n. unfold format_line.
  assert (Hzip : zip (take n justifications) (take n column_widths) =
                 zip justifications column_widths).
  { subst n. revert column_widths.
    induction justifications as [|j js IH]; intros [|w ws]; simpl;
      try done.
    by rewrite IH. }
  rewrite Hzip, (str_format_surplus _ items).
  replace (length (zip justifications column_widths)) with n; [done |].
  subst n. rewrite length_zip_with. lia.
Qed.

Lemma format_line_ok (items : list value) (column_widths : list nat)
    (justifications : list just) :
  Nat.min (length column_widths) (length justifications) <= length items ->
  Forall (fun v => is_Some (display v)) items ->
  exists line, format_line items column_widths justifications = Ok line.
Proof.
  intros Hlen Hall. unfold format_line.
  destruct (str_format_ok (zip justifications column_widths) items)
    as [s ->]; [rewrite length_zip_with; lia | done |].
  by eexists.
Qed.

Lemma format_line_short (items : list value) (column_widths : list nat)
    (justifications : list just) :
  length items < length column_widths ->
  length items < length justifications ->
  Forall (fun v => is_Some (display v)) items ->
  format_line items column_widths justifications = Raise IndexError.
Proof.
  intros Hw Hj Hall. unfold format_line.
  rewrite str_format_short; [done | rewrite length_zip_with; lia | done].
Qed.

(** C9: a column width is a minimum.  A returned line is the
    concatenation of its cells and the line terminator; the cell of an
    item is its display text filled to the width, as long as the longer of
    the two, and it is the whole text when the text is at least as long as
    the width: nothing is cut. *)
Theorem format_line_width_is_minimum (items : list value)
    (column_widths : list nat) (justifications : list just) (line : string) :
  format_line items column_widths justifications = Ok line ->
  exists cells : list string,
    line = join cells +:+ nl /\
    length cells =
      Nat.min (length column_widths) (length justifications) /\
    forall (i : nat) (cell : string),
      cells !! i = Some cell ->
      exists j width v text,
        justifications !! i = Some j /\ column_widths !! i = Some width /\
        items !! i = Some v /\ display v = Some text /\
        cell = pad j width text /\
        String.length cell = Nat.max width (String.length text) /\
        (width <= String.length text -> cell = text).
Proof.
  unfold format_line.
  destruct (str_format (zip justifications column_widths) items)
    as [s|e] eqn:Hs; simpl; [| done].
  intros [= <-].
  destruct (str_format_cells _ _ _ Hs) as (cells & -> & Hlen & Hcells).
  exists cells. split; [done |].
  split; [rewrite Hlen, length_zip_with; lia |].
  intros i cell Hi.
  destruct (Hcells i cell Hi) as (j & width & v & text & Hf & Hv & Hd & ->).
  apply lookup_zip_with_Some in Hf as (j' & w' & [= <- <-] & Hj & Hw).
  exists j, width, v, text.
  repeat split; try done.
  - apply pad_length.
  - apply pad_ge.
Qed.

Lemma format_line_width_is_minimum_witness :
  let line := "Package id 0" +:+ spaces 9 +:+ "5" +:+ nl in
  format_line [VStr "Package id 0"; VNum (NInt 5)] [10; 10] [JLeft; JRight]
    = Ok line /\
  10 + 10 + 1 < String.length line /\
  exists cells : list string,
    line = join cells +:+ nl /\
    length cells = 2 /\
    forall (i : nat) (cell : string),
      cells !! i = Some cell ->
      exists j width v text,
        [JLeft; JRight] !! i = Some j /\ [10; 10] !! i = Some width /\
        [VStr "Package id 0"; VNum (NInt 5)] !! i = Some v /\
        display v = Some text /\
        cell = pad j width text /\
        String.length cell = Nat.max width (String.length text) /\
        (width <= String.length text -> cell = text).
Proof.
  split; [reflexivity |].
  split; [vm_compute; lia |].
  apply (format_line_width_is_minimum
           [VStr "Package id 0"; VNum (NInt 5)] [10; 10] [JLeft; JRight]).
  reflexivity.
Defined.

(** C5: the renderer is given the one-cell device row of the GPU
    section together with the five widths and justifications of that
    section; [format_line] raises [IndexError] on it instead of returning
    a shorter line. *)
Theorem format_line_gpu_name_row (gpus : GPUData.t) (vendor name : string) :
  format_line (gpu_name_row gpus vendor name) gpu_column_widths
    gpu_justifications = Raise IndexError.
Proof. reflexivity. Qed.

(** C4: the title is appended without a line terminator, so in the
    text of a section the header line follows the title on the same
    line. *)
Theorem append_formatted_section_title (title : string)
    (data_rows : list row) (headers : row) (col_widths : list nat)
    (justifications : list just) (lines out : list string) :
  data_rows <> [] ->
  append_formatted_section title data_rows headers col_widths
    justifications lines = Ok out ->
  exists (h : string) (body : list string),
    format_line headers col_widths justifications = Ok h /\
    format_rows data_rows col_widths justifications = Ok body /\
    out = lines ++ title :: h :: body ++ [nl] /\
    join out = join lines +:+ title +:+ h +:+ join body +:+ nl.
Proof.
  intros Hrows. rewrite append_formatted_section_lines.
  destruct data_rows as [|r rs]; [done |].
  unfold section_lines.
  destruct (format_line headers col_widths justifications) as [h|e];
    cbn [bind]; [| done].
  destruct (format_rows (r :: rs) col_widths justifications) as [body|e];
    cbn [bind]; [| done].
  intros [= <-]. exists h, body. repeat split.
  rewrite join_app. simpl. rewrite join_app. simpl.
  by rewrite append_nil_r.
Qed.

Lemma append_formatted_section_title_witness :
  let fans := sample_monitor [sample_key "nct6775" "" "fan1"] false in
  let data_rows := [current_row fans (sample_key "nct6775" "" "fan1")] in
  let out :=
    ["nct6775";
     "Fan" +:+ spaces 12 +:+ spaces 3 +:+ "Current(RPM)" +:+
       spaces 7 +:+ "Min(RPM)" +:+ spaces 7 +:+ "Max(RPM)" +:+
       spaces 6 +:+ "Mean(RPM)" +:+ nl;
     "fan1" +:+ spaces 11 +:+ spaces 11 +:+ "1200" +:+
       spaces 12 +:+ "900" +:+ spaces 11 +:+ "1500" +:+
       spaces 9 +:+ "1187.5" +:+ nl;
     nl] in
  data_rows <> [] /\
  append_formatted_section "nct6775" data_rows fan_headers
    fan_column_widths fan_justifications [] = Ok out /\
  join (take 2 out) =
    "nct6775Fan" +:+ spaces 15 +:+ "Current(RPM)" +:+ spaces 7
    +:+ "Min(RPM)" +:+ spaces 7 +:+ "Max(RPM)" +:+ spaces 6
    +:+ "Mean(RPM)" +:+ nl /\
  exists (h : string) (body : list string),
    format_line fan_headers fan_column_widths fan_justifications = Ok h /\
    format_rows data_rows fan_column_widths fan_justifications = Ok body /\
    out = [] ++ "nct6775" :: h :: body ++ [nl] /\
    join out = join [] +:+ "nct6775" +:+ h +:+ join body +:+ nl.
Proof.
  split; [discriminate |].
  split; [reflexivity |].
  split; [reflexivity |].
  apply (append_formatted_section_title "nct6775"
           [current_row
              (sample_monitor [sample_key "nct6775" "" "fan1"] false)
              (sample_key "nct6775" "" "fan1")]
           fan_headers fan_column_widths fan_justifications []).
  - discriminate.
  - reflexivity.
Defined.

Lemma append_formatted_section_empty (title : string) (headers : row)
    (col_widths : list nat) (justifications : list just)
    (lines : list string) :
  append_formatted_section title [] headers col_widths justifications lines
  = Ok lines.
Proof. reflexivity. Qed.

Lemma format_rows_ok (data_rows : list row) (col_widths : list nat)
    (justifications : list just) :
  Forall (fun r : row =>
            Nat.min (length col_widths) (length justifications) <= length r
            /\ Forall (fun v => is_Some (display v)) r) data_rows ->
  exists body, format_rows data_rows col_widths justifications = Ok body.
Proof.
  induction 1 as [|r rs [Hlen Hall] _ [body IH]]; simpl.
  - by eexists.
  - destruct (format_line_ok r col_widths justifications Hlen Hall)
      as [l ->].
    rewrite IH. simpl. by eexists.
Qed.

(** A loop that only appends builds the mapped list. *)
Lemma foldl_snoc {A B} (f : A -> B) (xs : list A) (acc : list B) :
  foldl (fun acc x => acc ++ [f x]) acc xs = acc ++ map f xs.
Proof.
  revert acc. induction xs as [|x xs IH]; intros acc; simpl.
  - by rewrite app_nil_r.
  - by rewrite IH, <- app_assoc.
Qed.

(** ** CPU frequency and usage *)

Lemma cpu_data_rows_zip (mhz usage : Monitor) :
  cpu_data_rows mhz usage =
  map (cpu_row mhz usage) (zip (records mhz) (records usage)).
Proof. unfold cpu_data_rows. by rewrite foldl_snoc. Qed.

(** ** Column widths *)

Lemma ctemps_section_rows (ctemps : Monitor) (lines : list string) :
  ctemps_section ctemps lines =
  if is_empty ctemps then Ok lines
  else append_formatted_section "" (map (stat_row ctemps) (records ctemps))
         ctemps_headers ctemps_column_widths ctemps_justifications lines.
Proof.
  unfold ctemps_section. destruct (is_empty ctemps); simpl; [done |].
  by rewrite foldl_snoc.
Qed.

Lemma watts_section_rows (watts : Monitor) (lines : list string) :
  watts_section watts lines =
  if is_empty watts then Ok lines
  else append_formatted_section "" (map (stat_row watts) (records watts))
         watts_headers watts_column_widths watts_justifications lines.
Proof.
  unfold watts_section. destruct (is_empty watts); simpl; [done |].
  by rewrite foldl_snoc.
Qed.

(** C7 as stated fails on the power section: it is rendered with the
    widths 10/10/10/10, which gives another text than 15/10/10/10. *)
Lemma watts_section_widths_counterexample :
  let watts := sample_monitor [sample_key "" "" "Package id 0"] false in
  let data_rows := map (stat_row watts) (records watts) in
  watts_section watts [] =
    append_formatted_section "" data_rows watts_headers [10; 10; 10; 10]
      watts_justifications [] /\
  watts_section watts [] <>
    append_formatted_section "" data_rows watts_headers [15; 10; 10; 10]
      watts_justifications [].
Proof. split; [reflexivity | discriminate]. Qed.

(** ** The CSV log *)

Section CSV_properties.

Variable writerow : list value -> string.

(** One call: the row is written after what the file held, a missing file
    is created, and no other file is touched. *)
Lemma write_csv_lookup (output_data : OutputData) (fs : gmap string string) :
  write_csv writerow output_data fs !! csv_fn output_data =
  Some (default "" (fs !! csv_fn output_data)
        +:+ writerow (data output_data)).
Proof. unfold write_csv. apply lookup_insert_eq. Qed.

Lemma write_csv_other (output_data : OutputData) (fs : gmap string string)
    (path : string) :
  path <> csv_fn output_data ->
  write_csv writerow output_data fs !! path = fs !! path.
Proof. intros Hne. unfold write_csv. by rewrite lookup_insert_ne. Qed.

Lemma csv_log_snoc (calls : list OutputData) (output_data : OutputData)
    (fs : gmap string string) :
  csv_log writerow (calls ++ [output_data]) fs =
  write_csv writerow output_data (csv_log writerow calls fs).
Proof. unfold csv_log. by rewrite foldl_app. Qed.

Lemma csv_log_other (calls : list OutputData) (fs : gmap string string)
    (path other : string) :
  Forall (fun output_data => csv_fn output_data = path) calls ->
  other <> path ->
  csv_log writerow calls fs !! other = fs !! other.
Proof.
  intros Hall Hne. induction calls as [|c calls IH] using rev_ind; [done |].
  apply Forall_app in Hall as [Hall Hc%Forall_inv].
  rewrite csv_log_snoc, write_csv_other; [by apply IH | congruence].
Qed.

Lemma csv_log_content (calls : list OutputData) (fs : gmap string string)
    (path : string) :
  Forall (fun output_data => csv_fn output_data = path) calls ->
  default "" (csv_log writerow calls fs !! path) =
  default "" (fs !! path)
  +:+ join (map (fun output_data => writerow (data output_data)) calls).
Proof.
  intros Hall. induction calls as [|c calls IH] using rev_ind.
  - simpl. by rewrite append_nil_r.
  - apply Forall_app in Hall as [Hall Hc%Forall_inv].
    rewrite csv_log_snoc. rewrite <- Hc at 1. rewrite write_csv_lookup.
    simpl. rewrite Hc, (IH Hall), map_app, join_app. simpl.
    by rewrite append_nil_r, append_assoc.
Qed.

Lemma csv_log_exists (calls : list OutputData) (fs : gmap string string)
    (path : string) :
  Forall (fun output_data => csv_fn output_data = path) calls ->
  calls <> [] ->
  is_Some (csv_log writerow calls fs !! path).
Proof.
  intros Hall Hne. destruct calls as [|c calls _] using rev_ind; [done |].
  apply Forall_app in Hall as [Hall Hc%Forall_inv].
  rewrite csv_log_snoc. rewrite <- Hc. rewrite write_csv_lookup.
  by eexists.
Qed.

End CSV_properties.

(** C8: K calls on a fresh path leave a file that holds the K rows in
    call order; each call writes its row after the rows written before,
    which stay as they were, the first call creates the file, and no other
    file changes. *)
Theorem write_csv_appends (writerow : list value -> string)
    (calls : list OutputData) (fs : gmap string string) (path : string) :
  fs !! path = None ->
  Forall (fun output_data => csv_fn output_data = path) calls ->
  (calls <> [] ->
   csv_log writerow calls fs !! path =
   Some (join (map (fun output_data => writerow (data output_data)) calls)))
  /\
  (forall (k : nat) (output_data : OutputData),
     calls !! k = Some output_data ->
     csv_log writerow (take (S k) calls) fs !! path =
     Some (default "" (csv_log writerow (take k calls) fs !! path)
           +:+ writerow (data output_data))) /\
  (forall other : string,
     other <> path -> csv_log writerow calls fs !! other = fs !! other).
Proof.
  intros Hfresh Hall. split; [| split].
  - intros Hne.
    destruct (csv_log_exists writerow calls fs path Hall Hne) as [c Hc].
    pose proof (csv_log_content writerow calls fs path Hall) as Hcontent.
    rewrite Hc, Hfresh in Hcontent. simpl in Hcontent.
    by rewrite Hc, Hcontent.
  - intros k od Hk.
    rewrite (take_S_r _ _ _ Hk), csv_log_snoc.
    assert (Hfn : csv_fn od = path).
    { eapply Forall_forall in Hall; [exact Hall |].
      by eapply list_elem_of_lookup_2. }
    rewrite <- Hfn at 1. rewrite write_csv_lookup. by rewrite Hfn.
  - intros other Hne. by apply csv_log_other with path.
Qed.

Lemma write_csv_appends_witness :
  let calls := [sample_output_data "log.csv" [VStr "run"; VNum (NInt 1)];
                sample_output_data "log.csv" [VStr "run"; VNone];
                sample_output_data "log.csv" [VStr "run"; VNum (NInt 3)]] in
  (∅ : gmap string string) !! "log.csv" = None /\
  Forall (fun output_data => csv_fn output_data = "log.csv") calls /\
  csv_log sample_writerow calls ∅ !! "log.csv" =
    Some ("run,1" +:+ nl +:+ "run," +:+ nl +:+ "run,3" +:+ nl).
Proof.
  assert (Hall : Forall (fun output_data => csv_fn output_data = "log.csv")
            [sample_output_data "log.csv" [VStr "run"; VNum (NInt 1)];
             sample_output_data "log.csv" [VStr "run"; VNone];
             sample_output_data "log.csv" [VStr "run"; VNum (NInt 3)]]).
  { repeat constructor. }
  split; [reflexivity |]. split; [exact Hall |].
  apply (write_csv_appends sample_writerow _ ∅ "log.csv"
           (lookup_empty _) Hall).
  discriminate.
Defined.

(** ** Runs *)

Section Runs.

Context {A : Type} (key : A -> string).

Lemma runs_head (y : A) (ys : list A) :
  exists r rs, runs key (y :: ys) = (y :: r) :: rs.
Proof.
  simpl. destruct (runs key ys) as [|[|z r] rs]; [by eauto.. |].
  case_bool_decide; by eauto.
Qed.

(** A block of one key, followed by nothing or by another key, is a run. *)
Lemma runs_app_cut (pending rest : list A) (k : string) :
  pending <> [] ->
  Forall (fun x => key x = k) pending ->
  (forall y, head rest = Some y -> key y <> k) ->
  runs key (pending ++ rest) = pending :: runs key rest.
Proof.
  intros Hne Hall Hrest.
  induction pending as [|x [|x' p] IH]; [done | |].
  - destruct rest as [|y ys]; [done |].
    destruct (runs_head y ys) as (r & rs & Hr).
    specialize (Hrest y eq_refl).
    change ([x] ++ y :: ys) with (x :: y :: ys).
    revert Hr. generalize (y :: ys). intros rest Hr.
    simpl. rewrite Hr.
    apply Forall_inv in Hall.
    rewrite bool_decide_eq_false_2; [done | congruence].
  - apply Forall_cons in Hall as [Hx Hall].
    change ((x :: x' :: p) ++ rest) with (x :: ((x' :: p) ++ rest)).
    cbn [runs]. rewrite IH by done.
    apply Forall_inv in Hall.
    rewrite bool_decide_eq_true_2; [done | congruence].
Qed.

Lemma runs_nonempty (xs : list A) : Forall (fun r => r <> []) (runs key xs).
Proof.
  induction xs as [|x xs IH]; simpl; [constructor |].
  destruct (runs key xs) as [|[|y r] rs].
  - by repeat constructor.
  - by repeat constructor.
  - apply Forall_cons in IH as [_ IH].
    case_bool_decide; by repeat constructor.
Qed.

Lemma runs_concat (xs : list A) : concat (runs key xs) = xs.
Proof.
  induction xs as [|x xs IH]; [done |].
  pose proof (runs_nonempty xs) as Hne.
  simpl. rewrite <- IH at 2.
  destruct (runs key xs) as [|[|y r] rs]; [done | |].
  - by apply Forall_inv in Hne.
  - by case_bool_decide.
Qed.

(** All the records of a run have the key of its first record. *)
Lemma runs_same_key (xs : list A) :
  Forall (fun r => forall x y, x ∈ r -> y ∈ r -> key x = key y)
    (runs key xs).
Proof.
  induction xs as [|x xs IH]; simpl; [constructor |].
  destruct (runs key xs) as [|[|y r] rs].
  - repeat constructor. by intros a b ->%list_elem_of_singleton
                                    ->%list_elem_of_singleton.
  - repeat constructor. by intros a b ->%list_elem_of_singleton
                                    ->%list_elem_of_singleton.
  - apply Forall_cons in IH as [Hr IH].
    case_bool_decide as Hk.
    + constructor; [| done].
      assert (Hy : forall a, a ∈ x :: y :: r -> key a = key y).
      { intros a [->|Ha]%elem_of_cons; [done |].
        apply Hr; [done | by left]. }
      intros a b Ha Hb. by rewrite (Hy a Ha), (Hy b Hb).
    + constructor; [| by constructor].
      by intros a b ->%list_elem_of_singleton ->%list_elem_of_singleton.
Qed.

(** Neighbouring runs differ in their key: the runs are maximal. *)
Lemma runs_maximal (xs : list A) (i : nat) (r1 r2 : list A) (x y : A) :
  runs key xs !! i = Some r1 -> runs key xs !! S i = Some r2 ->
  last r1 = Some x -> head r2 = Some y -> key x <> key y.
Proof.
  revert i r1 r2 x y.
  induction xs as [|a xs IH]; intros i r1 r2 x y; simpl; [done |].
  destruct (runs key xs) as [|[|b r] rs] eqn:Hr; [done | done |].
  pose proof (runs_same_key xs) as Hsame. rewrite Hr in Hsame.
  apply Forall_cons in Hsame as [Hsame _].
  case_bool_decide as Hk.
  - destruct i as [|i]; simpl.
    + intros [= <-] H2 Hx Hy.
      apply (IH 0 (b :: r) r2 x y); [done | done | | done].
      by rewrite last_cons_cons in Hx.
    + intros H1 H2. by apply (IH (S i)).
  - destruct i as [|i]; simpl.
    + intros [= <-] [= <-] [= <-] [= <-]. done.
    + intros H1 H2. by apply (IH i).
Qed.

End Runs.

(** ** The grouping loop

    The loops of the memory, fan and drive sections have one shape: a
    state that holds the key of the current group, its rows and [lines];
    a record of the same key adds its rows; a record of another key hands
    the rows to the renderer and starts a new group; the rows left after
    the last record are handed to the renderer.  The shape is stated once,
    by equations on the body of a loop, and such a loop renders the groups
    of the runs. *)

Section GroupLoop.

Context {S : Type}.
Variable body : Params -> S -> result S.
Variable final : S -> result (list string).
Variable build : string -> list row -> row -> list string -> S.
Variable okh : row -> Prop.
Variable rows_of : Params -> list row.
Variable title_of : string -> string.
Variable hdr_of : string -> row.
Variable col_widths : list nat.
Variable justifications : list just.

Hypothesis okh_hdr : forall k, okh (hdr_of k).

Hypothesis body_same :
  forall params k data_rows h lines,
    okh h -> p0 params = k ->
    body params (build k data_rows h lines) =
    Ok (build k (data_rows ++ rows_of params) h lines).

Hypothesis body_other :
  forall params k data_rows h lines,
    okh h -> p0 params <> k ->
    body params (build k data_rows h lines) =
    (let! lines :=
       append_formatted_section (title_of k) data_rows h col_widths
         justifications lines in
     Ok (build (p0 params) (rows_of params) (hdr_of (p0 params)) lines)).

Hypothesis final_build :
  forall k data_rows h lines,
    okh h ->
    final (build k data_rows h lines) =
    append_formatted_section (title_of k) data_rows h col_widths
      justifications lines.

(** In the middle of a run: [pending] are its records seen so far. *)
Lemma group_loop_pending (xs pending : list Params) (h : row)
    (lines : list string) :
  okh h -> pending <> [] ->
  Forall (fun x => p0 x = run_key pending) pending ->
  bind (for_each xs body
          (build (run_key pending) (flat_map rows_of pending) h lines))
    final =
  emit_groups col_widths justifications
    (groups_from title_of hdr_of rows_of h (runs p0 (pending ++ xs))) lines.
Proof.
  revert pending h lines.
  induction xs as [|y ys IH]; intros pending h lines Hh Hne Hall.
  - rewrite (runs_app_cut p0 pending [] (run_key pending)) by done.
    cbn [for_each bind runs groups_from map emit_groups make_group
         g_title g_headers g_rows].
    by rewrite final_build, bind_ok.
  - cbn [for_each]. rewrite bind_assoc.
    destruct (decide (p0 y = run_key pending)) as [Heq|Hneq].
    + rewrite body_same by done. cbn [bind].
      assert (Hkey : run_key (pending ++ [y]) = run_key pending)
        by by destruct pending.
      replace (flat_map rows_of pending ++ rows_of y)
        with (flat_map rows_of (pending ++ [y]))
        by (rewrite flat_map_app; simpl; by rewrite app_nil_r).
      rewrite <- Hkey.
      rewrite (IH (pending ++ [y]) h lines Hh).
      * by rewrite <- app_assoc.
      * by destruct pending.
      * rewrite Hkey. apply Forall_app. split; [done |].
        by constructor.
    + rewrite body_other by done. rewrite bind_assoc.
      rewrite (runs_app_cut p0 pending (y :: ys) (run_key pending));
        [| done | done | by intros ? [= <-]].
      cbn [groups_from emit_groups for_each make_group
           g_title g_headers g_rows].
      destruct (append_formatted_section (title_of (run_key pending))
                  (flat_map rows_of pending) h col_widths justifications
                  lines) as [lines'|e]; cbn [bind]; [| done].
      specialize (IH [y] (hdr_of (p0 y)) lines' (okh_hdr _)).
      cbn [run_key flat_map] in IH. rewrite app_nil_r in IH.
      rewrite IH; [| done | by repeat constructor].
      change ([y] ++ ys) with (y :: ys).
      destruct (runs_head p0 y ys) as (r & rs & ->).
      reflexivity.
Qed.

(** From the start of the loop. *)
Lemma group_loop (xs : list Params) (h0 : row) (lines : list string) :
  okh h0 ->
  bind (for_each xs body (build "" [] h0 lines)) final =
  emit_groups col_widths justifications
    (groups_of title_of hdr_of rows_of h0 (runs p0 xs)) lines.
Proof.
  intros Hh. destruct xs as [|y ys].
  - cbn [for_each bind]. by rewrite final_build.
  - cbn [for_each]. rewrite bind_assoc.
    destruct (runs_head p0 y ys) as (r & rs & Hr).
    destruct (decide (p0 y = "")) as [Heq|Hneq].
    + rewrite body_same by done. cbn [bind app].
      pose proof (group_loop_pending ys [y] h0 lines Hh) as Hp.
      cbn [run_key flat_map] in Hp. rewrite app_nil_r, Heq in Hp.
      rewrite Hp; [| done | by repeat constructor].
      change ([y] ++ ys) with (y :: ys). rewrite Hr.
      unfold groups_of. cbn [run_key].
      by rewrite bool_decide_eq_true_2.
    + rewrite body_other by done.
      cbn [append_formatted_section bind].
      pose proof (group_loop_pending ys [y] (hdr_of (p0 y)) lines
                    (okh_hdr _)) as Hp.
      cbn [run_key flat_map] in Hp. rewrite app_nil_r in Hp.
      rewrite Hp; [| done | by repeat constructor].
      change ([y] ++ ys) with (y :: ys). rewrite Hr.
      unfold groups_of. cbn [run_key].
      by rewrite bool_decide_eq_false_2.
Qed.

End GroupLoop.

Lemma flat_map_singleton {A B} (f : A -> B) (xs : list A) :
  flat_map (fun x => [f x]) xs = map f xs.
Proof. induction xs as [|x xs IH]; simpl; [done | by rewrite IH]. Qed.

Lemma flat_map_sampled (m : Monitor) (f : Params -> row) (r : list Params) :
  flat_map (fun params =>
              match get_current m params with
              | Some _ => [f params]
              | None => []
              end) r =
  map f (sampled m r).
Proof.
  unfold sampled. induction r as [|x r IH]; simpl; [done |].
  rewrite IH. destruct (get_current m x) as [c|] eqn:Hc.
  - rewrite filter_cons_True; [done | by rewrite Hc].
  - rewrite filter_cons_False; [done |]. rewrite Hc. by intros [? ?].
Qed.

(** ** Memory *)

(** The memory section renders the groups of the runs of memory types. *)
Lemma mem_section_groups (mem : Monitor) (lines : list string) :
  mem_section mem lines =
  emit_groups mem_column_widths mem_justifications (mem_groups mem) lines.
Proof.
  unfold mem_section.
  pose proof (group_loop (mem_body mem)
    (fun st : string * list row * row * list string =>
       let '(mem_type, mem_data_rows, headers, lines) := st in
       append_formatted_section "" mem_data_rows headers
         mem_column_widths mem_justifications lines)
    (fun k data_rows h lines => (k, data_rows, h, lines))
    (fun _ => True)
    (fun params => [stat_row mem params])
    (fun _ => "")
    (fun k => [VStr k; VStr "Min"; VStr "Max"; VStr "Mean"])
    mem_column_widths mem_justifications) as Hloop.
  rewrite Hloop; clear Hloop; try done.
  - unfold mem_groups, groups_of, groups_from, make_group, mem_group.
    destruct (runs p0 (records mem)) as [|r rs]; [done |].
    rewrite flat_map_singleton.
    rewrite (map_ext _ (mem_group mem))
      by (intros r'; unfold mem_group; by rewrite flat_map_singleton).
    by case_bool_decide.
  - intros params k data_rows h lines' _ Hk. unfold mem_body.
    by rewrite bool_decide_eq_false_2 by (intros Hne; by apply Hne).
  - intros params k data_rows h lines' _ Hk. unfold mem_body.
    rewrite bool_decide_eq_true_2 by congruence.
    destruct data_rows as [|r rs]; [done |].
    by destruct (append_formatted_section "" (r :: rs) h mem_column_widths
                   mem_justifications lines').
Qed.

(** ** Fans *)

Lemma fans_section_groups (fans : Monitor) (lines : list string) :
  fans_section fans lines =
  if is_empty fans then Ok lines
  else emit_groups fan_column_widths fan_justifications (fan_groups fans)
         lines.
Proof.
  unfold fans_section. destruct (is_empty fans); [done |]. cbn [negb].
  pose proof (group_loop (fans_body fans)
    (fun st : string * list row * list string =>
       let '(driver, fan_data_rows, lines) := st in
       append_formatted_section driver fan_data_rows fan_headers
         fan_column_widths fan_justifications lines)
    (fun k data_rows h lines => (k, data_rows, lines))
    (fun h => h = fan_headers)
    (fun params => [current_row fans params])
    (fun k => k)
    (fun _ => fan_headers)
    fan_column_widths fan_justifications) as Hloop.
  rewrite (fun H1 H2 H3 H4 =>
             Hloop H1 H2 H3 H4 (records fans) fan_headers lines);
    clear Hloop; try done.
  - unfold fan_groups, groups_of, groups_from, make_group, fan_group.
    destruct (runs p0 (records fans)) as [|r rs]; [done |].
    cbn [map]. rewrite flat_map_singleton.
    rewrite (map_ext _ (fan_group fans))
      by (intros r'; unfold fan_group; by rewrite flat_map_singleton).
    by case_bool_decide.
  - intros params k data_rows h lines' _ Hk. unfold fans_body.
    by rewrite bool_decide_eq_false_2 by (intros Hne; by apply Hne).
  - intros params k data_rows h lines' -> Hk. unfold fans_body.
    rewrite bool_decide_eq_true_2 by congruence.
    destruct data_rows as [|r rs]; [done |].
    by destruct (append_formatted_section k (r :: rs) fan_headers
                   fan_column_widths fan_justifications lines').
  - by intros k data_rows h lines' ->.
Qed.

(** ** Drives *)

Lemma drives_section_groups (drives : DriveTemp.t) (lines : list string) :
  drives_section drives lines =
  if is_empty (DriveTemp.base drives) then Ok lines
  else emit_groups drive_column_widths drive_justifications
         (drive_groups drives) lines.
Proof.
  unfold drives_section.
  destruct (is_empty (DriveTemp.base drives)); [done |]. cbn [negb].
  pose proof (group_loop (drives_body drives)
    (fun st : string * list row * list string =>
       let '(drive, drive_data_rows, lines) := st in
       append_formatted_section (drive_title drives drive) drive_data_rows
         drive_headers drive_column_widths drive_justifications lines)
    (fun k data_rows h lines => (k, data_rows, lines))
    (fun h => h = drive_headers)
    (fun params =>
       match get_current (DriveTemp.base drives) params with
       | Some _ => [current_row (DriveTemp.base drives) params]
       | None => []
       end)
    (drive_title drives)
    (fun _ => drive_headers)
    drive_column_widths drive_justifications) as Hloop.
  rewrite (fun H1 H2 H3 H4 =>
             Hloop H1 H2 H3 H4 (records (DriveTemp.base drives))
               drive_headers lines);
    clear Hloop; try done.
  - unfold drive_groups, groups_of, groups_from, make_group, drive_group.
    destruct (runs p0 (records (DriveTemp.base drives))) as [|r rs];
      [done |].
    cbn [map]. rewrite flat_map_sampled.
    rewrite (map_ext _ (drive_group drives))
      by (intros r'; unfold drive_group; by rewrite flat_map_sampled).
    by case_bool_decide.
  - intros params k data_rows h lines' _ Hk. unfold drives_body.
    rewrite bool_decide_eq_false_2 by (intros Hne; by apply Hne).
    cbn [bind].
    destruct (get_current (DriveTemp.base drives) params);
      [done | by rewrite app_nil_r].
  - intros params k data_rows h lines' -> Hk. unfold drives_body.
    rewrite bool_decide_eq_true_2 by congruence.
    destruct data_rows as [|r rs].
    + cbn [bind append_formatted_section].
      by destruct (get_current (DriveTemp.base drives) params).
    + destruct (append_formatted_section (drive_title drives k) (r :: rs)
                  drive_headers drive_column_widths drive_justifications
                  lines'); cbn [bind]; [| done].
      by destruct (get_current (DriveTemp.base drives) params).
  - by intros k data_rows h lines' ->.
Qed.

(** ** GPUs *)

Lemma gpu_run_rows_app (gpus : GPUData.t) (vendor name : string)
    (r1 r2 : list Params) :
  gpu_run_rows gpus vendor name (r1 ++ r2) =
  gpu_run_rows gpus vendor name r1
  ++ gpu_run_rows gpus vendor (last_name name r1) r2.
Proof.
  revert name. induction r1 as [|x r1 IH]; intros name; [done |].
  cbn [app gpu_run_rows]. rewrite IH, <- !app_assoc.
  replace (last_name (p1 x) r1) with (last_name name (x :: r1)); [done |].
  unfold last_name. destruct r1 as [|x' r1]; [done |].
  rewrite last_cons_cons.
  destruct (last (x' :: r1)) eqn:Hl; [done |].
  by apply last_None in Hl.
Qed.

Lemma last_name_snoc (name : string) (r : list Params) (y : Params) :
  last_name name (r ++ [y]) = p1 y.
Proof. unfold last_name. by rewrite last_snoc. Qed.

(** One iteration on a record of the current vendor. *)
Lemma gpus_body_same (gpus : GPUData.t) (y : Params) (vendor name : string)
    (data_rows : list row) (dv : option string) (lines : list string) :
  p0 y = vendor ->
  gpus_body gpus y (vendor, name, data_rows, dv, lines) =
  Ok (vendor, p1 y, data_rows ++ gpu_run_rows gpus vendor name [y],
      Some "", lines).
Proof.
  intros Hk. unfold gpus_body.
  rewrite bool_decide_eq_false_2 by (intros Hne; by apply Hne).
  cbn [bind gpu_run_rows]. rewrite app_nil_r.
  case_bool_decide as Hn.
  - destruct (get_current (GPUData.base gpus) y);
      by rewrite <- ?app_assoc, ?app_nil_r.
  - subst name.
    by destruct (get_current (GPUData.base gpus) y); rewrite ?app_nil_r.
Qed.

(** One iteration on a record of another vendor. *)
Lemma gpus_body_other (gpus : GPUData.t) (y : Params) (vendor name : string)
    (data_rows : list row) (dv : option string) (lines : list string) :
  p0 y <> vendor ->
  gpus_body gpus y (vendor, name, data_rows, dv, lines) =
  (let! lines :=
     append_formatted_section (vendor +:+ "") data_rows gpu_headers
       gpu_column_widths gpu_justifications lines in
   Ok (p0 y, p1 y, gpu_run_rows gpus (p0 y) name [y],
       Some (gpu_last_suffix gpus [y]), lines)).
Proof.
  intros Hk. unfold gpus_body.
  rewrite bool_decide_eq_true_2 by congruence.
  assert (Hflush :
    match data_rows with
    | [] => Ok (data_rows, lines)
    | _ :: _ =>
        let! lines :=
          append_formatted_section (vendor +:+ "") data_rows gpu_headers
            gpu_column_widths gpu_justifications lines in
        Ok ([], lines)
    end =
    (let! lines :=
       append_formatted_section (vendor +:+ "") data_rows gpu_headers
         gpu_column_widths gpu_justifications lines in
     Ok ([] : list row, lines))).
  { by destruct data_rows. }
  rewrite Hflush, !bind_assoc.
  destruct (append_formatted_section (vendor +:+ "") data_rows gpu_headers
              gpu_column_widths gpu_justifications lines) as [lines'|e];
    [| done].
  cbn [bind gpu_run_rows gpu_last_suffix app]. rewrite app_nil_r.
  case_bool_decide as Hn.
  - by destruct (get_current (GPUData.base gpus) y).
  - subst name.
    by destruct (get_current (GPUData.base gpus) y).
Qed.

Lemma gpus_loop_pending (gpus : GPUData.t) (xs pending : list Params)
    (name0 : string) (lines : list string) :
  pending <> [] ->
  Forall (fun x => p0 x = run_key pending) pending ->
  bind (for_each xs (gpus_body gpus)
          (run_key pending, last_name name0 pending,
           gpu_run_rows gpus (run_key pending) name0 pending,
           Some (gpu_last_suffix gpus pending), lines))
    gpus_final =
  emit_groups gpu_column_widths gpu_justifications
    (gpu_groups_from gpus name0 (runs p0 (pending ++ xs))) lines.
Proof.
  revert pending name0 lines.
  induction xs as [|y ys IH]; intros pending name0 lines Hne Hall.
  - rewrite (runs_app_cut p0 pending [] (run_key pending)) by done.
    cbn [for_each bind runs gpu_groups_from emit_groups gpus_final
         g_title g_headers g_rows].
    by rewrite bind_ok.
  - cbn [for_each]. rewrite bind_assoc.
    destruct (decide (p0 y = run_key pending)) as [Heq|Hneq].
    + rewrite gpus_body_same by done. cbn [bind].
      assert (Hkey : run_key (pending ++ [y]) = run_key pending)
        by by destruct pending.
      assert (Hsuf : gpu_last_suffix gpus (pending ++ [y]) = "")
        by by destruct pending as [|? [|? ?]].
      rewrite <- (last_name_snoc name0 pending y).
      rewrite <- gpu_run_rows_app, <- Hsuf, <- Hkey.
      rewrite (IH (pending ++ [y]) name0 lines).
      * by rewrite <- app_assoc.
      * by destruct pending.
      * rewrite Hkey. apply Forall_app. split; [done |].
        by constructor.
    + rewrite gpus_body_other by done. rewrite bind_assoc.
      rewrite (runs_app_cut p0 pending (y :: ys) (run_key pending));
        [| done | done | by intros ? [= <-]].
      destruct (runs_head p0 y ys) as (r & rs & Hr).
      cbn [gpu_groups_from emit_groups for_each g_title g_headers g_rows].
      rewrite Hr at 1.
      destruct (append_formatted_section (run_key pending +:+ "")
                  (gpu_run_rows gpus (run_key pending) name0 pending)
                  gpu_headers gpu_column_widths gpu_justifications lines)
        as [lines'|e]; cbn [bind]; [| done].
      specialize (IH [y] (last_name name0 pending) lines').
      cbn [run_key] in IH.
      change (last_name (last_name name0 pending) [y]) with (p1 y) in IH.
      rewrite IH; [done | done | by repeat constructor].
Qed.

(** The GPU section renders the groups of the runs of vendors; without
    any record the title of the last group reads a local that was never
    assigned. *)
Lemma gpus_section_groups (gpus : GPUData.t) (lines : list string) :
  gpus_section gpus lines =
  if is_empty (GPUData.base gpus) then Ok lines
  else match records (GPUData.base gpus) with
       | [] => Raise UnboundLocalError
       | _ :: _ =>
           emit_groups gpu_column_widths gpu_justifications
             (gpu_groups gpus) lines
       end.
Proof.
  unfold gpus_section, gpu_groups.
  destruct (is_empty (GPUData.base gpus)); [done |]. cbn [negb].
  change (bind (for_each (records (GPUData.base gpus)) (gpus_body gpus)
                  ("", "", [], None, lines)) gpus_final = 
          match records (GPUData.base gpus) with
          | [] => Raise UnboundLocalError
          | _ :: _ =>
              emit_groups gpu_column_widths gpu_justifications
                (gpu_groups_from gpus ""
                   (runs p0 (records (GPUData.base gpus)))) lines
          end).
  destruct (records (GPUData.base gpus)) as [|y ys]; [done |].
  cbn [for_each]. rewrite bind_assoc.
  pose proof (gpus_loop_pending gpus ys [y] "" lines) as Hp.
  cbn [run_key] in Hp.
  change (last_name "" [y]) with (p1 y) in Hp.
  destruct (decide (p0 y = "")) as [Heq|Hneq].
  - rewrite gpus_body_same by done. cbn [bind app].
    assert (Hsuf : gpu_last_suffix gpus [y] = "").
    { cbn [gpu_last_suffix]. rewrite Heq. done. }
    rewrite Hsuf, Heq in Hp.
    rewrite Hp; [done | done | by repeat constructor].
  - rewrite gpus_body_other by done.
    cbn [append_formatted_section bind].
    rewrite Hp; [done | done | by repeat constructor].
Qed.

(** ** Groups and the text of a category *)

(** The renderer skips the groups without rows, and adds the section of
    every other group, in order. *)
Lemma emit_groups_sections (col_widths : list nat)
    (justifications : list just) (gs : list group)
    (lines out : list string) :
  emit_groups col_widths justifications gs lines = Ok out <->
  exists secs : list (list string),
    sections_of col_widths justifications (emitted gs) secs /\
    out = lines ++ concat secs.
Proof.
  unfold emit_groups, sections_of, emitted. revert lines out.
  induction gs as [|g gs IH]; intros lines out; cbn [for_each].
  - split.
    + intros [= <-]. exists []. split; [constructor |].
      by rewrite app_nil_r.
    + intros (secs & Hsecs & ->). apply Forall2_nil_inv_l in Hsecs as ->.
      by rewrite app_nil_r.
  - rewrite append_formatted_section_lines.
    destruct (g_rows g) as [|r rs] eqn:Hrows.
    + cbn [bind]. rewrite filter_cons_False by (rewrite Hrows; tauto).
      apply IH.
    + rewrite filter_cons_True by by rewrite Hrows.
      rewrite <- Hrows.
      destruct (section_lines (g_title g) (g_rows g) (g_headers g)
                  col_widths justifications) as [sec|e] eqn:Hsec;
        cbn [bind].
      * rewrite IH. split.
        -- intros (secs & Hsecs & ->). exists (sec :: secs).
           split; [by constructor |]. simpl. by rewrite app_assoc.
        -- intros (secs & Hsecs & ->).
           apply Forall2_cons_inv_l in Hsecs
             as (sec' & secs' & Hsec' & Hsecs & ->).
           rewrite Hsec in Hsec'. injection Hsec' as <-.
           exists secs'. split; [done |]. simpl. by rewrite app_assoc.
      * split; [done |]. intros (secs & Hsecs & _).
        apply Forall2_cons_inv_l in Hsecs as (sec' & secs' & Hsec' & _).
        by rewrite Hsec in Hsec'.
Qed.

(** A section only adds lines. *)
Lemma emit_groups_prefix (col_widths : list nat)
    (justifications : list just) (gs : list group)
    (lines out : list string) :
  emit_groups col_widths justifications gs lines = Ok out ->
  lines `prefix_of` out.
Proof.
  intros (secs & _ & ->)%emit_groups_sections. by eexists.
Qed.

Lemma emitted_all (gs : list group) :
  Forall (fun g => g_rows g <> []) gs -> emitted gs = gs.
Proof.
  unfold emitted. induction 1 as [|g gs Hg _ IH]; [done |].
  by rewrite filter_cons_True, IH.
Qed.

Lemma map_nonempty {A B} (f : A -> B) (xs : list A) :
  xs <> [] -> map f xs <> [].
Proof. by destruct xs. Qed.

(** Memory: a group per run, each with the rows of its records. *)
Lemma mem_groups_rows (mem : Monitor) :
  map g_rows (mem_groups mem) =
  map (map (stat_row mem)) (runs p0 (records mem)).
Proof.
  unfold mem_groups. destruct (runs p0 (records mem)) as [|r rs]; [done |].
  cbn [map]. rewrite map_map.
  by case_bool_decide.
Qed.

Lemma fan_groups_rows (fans : Monitor) :
  map g_rows (fan_groups fans) =
  map (map (current_row fans)) (runs p0 (records fans)).
Proof. unfold fan_groups. by rewrite map_map. Qed.

Lemma drive_groups_rows (drives : DriveTemp.t) :
  map g_rows (drive_groups drives) =
  map (fun r => map (current_row (DriveTemp.base drives))
                  (sampled (DriveTemp.base drives) r))
    (runs p0 (records (DriveTemp.base drives))).
Proof. unfold drive_groups. by rewrite map_map. Qed.

(** Groups that all have rows: as many as runs, and the rows of the
    groups are the rows of the records, each once and in order. *)
Lemma groups_partition {A} (key : A -> string) (f : A -> row)
    (xs : list A) (gs : list group) :
  map g_rows gs = map (map f) (runs key xs) ->
  emitted gs = gs /\
  length gs = length (runs key xs) /\
  concat (map g_rows gs) = map f xs.
Proof.
  intros Hrows. split; [| split].
  - apply emitted_all.
    apply Forall_forall. intros g Hg.
    assert (Hin : g_rows g ∈ map (map f) (runs key xs)).
    { rewrite <- Hrows. by apply list_elem_of_fmap_2. }
    apply list_elem_of_fmap in Hin as (r & -> & Hr).
    apply map_nonempty.
    pose proof (runs_nonempty key xs) as Hne.
    by eapply Forall_forall in Hne.
  - by rewrite <- (length_map g_rows), Hrows, length_map.
  - rewrite Hrows. rewrite <- (runs_concat key xs) at 2.
    generalize (runs key xs). intros rs.
    induction rs as [|r rs IH]; [done |].
    simpl. by rewrite IH, map_app.
Qed.

Lemma concat_emitted (gs : list group) :
  concat (map g_rows (emitted gs)) = concat (map g_rows gs).
Proof.
  unfold emitted. induction gs as [|g gs IH]; [done |].
  destruct (g_rows g) as [|r rs] eqn:Hrows.
  - rewrite filter_cons_False by (rewrite Hrows; tauto).
    simpl. by rewrite Hrows.
  - rewrite filter_cons_True by by rewrite Hrows.
    simpl. by rewrite IH.
Qed.

Lemma sampled_app (m : Monitor) (r1 r2 : list Params) :
  sampled m (r1 ++ r2) = sampled m r1 ++ sampled m r2.
Proof. unfold sampled. apply filter_app. Qed.

Lemma sampled_concat_rows (m : Monitor) (rs : list (list Params)) :
  concat (map (fun r => map (current_row m) (sampled m r)) rs) =
  map (current_row m) (sampled m (concat rs)).
Proof.
  induction rs as [|r rs IH]; [done |].
  simpl. by rewrite IH, sampled_app, map_app.
Qed.

(** Drives: the groups that are rendered are those of the runs with a
    sampled record, and their rows are the rows of the sampled records. *)
Lemma drive_groups_partition (drives : DriveTemp.t) :
  let m := DriveTemp.base drives in
  emitted (drive_groups drives) =
    map (drive_group drives)
      (filter (fun r => sampled m r <> []) (runs p0 (records m))) /\
  concat (map g_rows (emitted (drive_groups drives))) =
    map (current_row m) (sampled m (records m)).
Proof.
  intros m. subst m. split.
  - unfold drive_groups, emitted.
    induction (runs p0 (records (DriveTemp.base drives))) as [|r rs IH];
      [done |].
    cbn [map].
    destruct (sampled (DriveTemp.base drives) r) as [|x xs] eqn:Hs.
    + rewrite filter_cons_False
        by (unfold drive_group; cbn [g_rows]; rewrite Hs; tauto).
      by rewrite filter_cons_False by tauto.
    + rewrite filter_cons_True
        by (unfold drive_group; cbn [g_rows]; by rewrite Hs).
      rewrite (filter_cons_True _ r) by by rewrite Hs.
      cbn [map]. by rewrite IH.
  - rewrite concat_emitted, drive_groups_rows.
    by rewrite sampled_concat_rows, runs_concat.
Qed.

Lemma stat_rows_app (rows1 rows2 : list row) :
  stat_rows (rows1 ++ rows2) = stat_rows rows1 ++ stat_rows rows2.
Proof. unfold stat_rows. apply filter_app. Qed.

Lemma stat_rows_gpu_run (gpus : GPUData.t) (vendor name : string)
    (r : list Params) :
  stat_rows (gpu_run_rows gpus vendor name r) =
  map (current_row (GPUData.base gpus)) (sampled (GPUData.base gpus) r).
Proof.
  revert name. induction r as [|x r IH]; intros name; [done |].
  cbn [gpu_run_rows]. rewrite !stat_rows_app, IH.
  change (x :: r) with ([x] ++ r). rewrite sampled_app, map_app.
  assert (Hname :
    stat_rows (if bool_decide (name ≠ p1 x)
               then [gpu_name_row gpus vendor (p1 x)] else []) = []).
  { by case_bool_decide. }
  rewrite Hname. cbn [app]. f_equal.
  unfold sampled.
  destruct (get_current (GPUData.base gpus) x) as [c|] eqn:Hc.
  - rewrite filter_cons_True by by rewrite Hc. done.
  - rewrite filter_cons_False; [done |]. rewrite Hc. by intros [? ?].
Qed.

Lemma gpu_groups_from_length (gpus : GPUData.t) (name : string)
    (rs : list (list Params)) :
  length (gpu_groups_from gpus name rs) = length rs.
Proof.
  revert name. induction rs as [|r rs IH]; intros name; [done |].
  simpl. by rewrite IH.
Qed.

Lemma gpu_groups_from_stat_rows (gpus : GPUData.t) (name : string)
    (rs : list (list Params)) :
  stat_rows (concat (map g_rows (gpu_groups_from gpus name rs))) =
  map (current_row (GPUData.base gpus))
    (sampled (GPUData.base gpus) (concat rs)).
Proof.
  revert name. induction rs as [|r rs IH]; intros name; [done |].
  cbn [gpu_groups_from map concat g_rows].
  by rewrite stat_rows_app, stat_rows_gpu_run, IH, sampled_app, map_app.
Qed.

(** GPUs: a group per run of vendors, and the rows of statistics of the
    rendered groups are the rows of the sampled records. *)
Lemma gpu_groups_partition (gpus : GPUData.t) :
  let m := GPUData.base gpus in
  length (gpu_groups gpus) = length (runs p0 (records m)) /\
  stat_rows (concat (map g_rows (emitted (gpu_groups gpus)))) =
    map (current_row m) (sampled m (records m)).
Proof.
  intros m. subst m. unfold gpu_groups. split.
  - apply gpu_groups_from_length.
  - by rewrite concat_emitted, gpu_groups_from_stat_rows, runs_concat.
Qed.

(** The titles of the GPU groups: every group before the last has the
    bare vendor; the last has the driver version only when it is a single
    record of nvidia. *)
Lemma gpu_groups_from_titles (gpus : GPUData.t) (name : string)
    (rs : list (list Params)) (i : nat) (g : group) :
  gpu_groups_from gpus name rs !! i = Some g ->
  exists r, rs !! i = Some r /\
    g_title g =
      run_key r +:+ (if bool_decide (S i = length rs)
                     then gpu_last_suffix gpus r else "").
Proof.
  revert name i. induction rs as [|r rs IH]; intros name i; [done |].
  destruct i as [|i]; cbn [gpu_groups_from].
  - intros [= <-]. exists r. split; [done |]. cbn [g_title].
    destruct rs as [|r' rs]; [done |].
    by rewrite bool_decide_eq_false_2 by (simpl; lia).
  - intros Hg. destruct (IH _ _ Hg) as (r' & Hr' & ->).
    exists r'. split; [done |]. simpl length.
    by rewrite (bool_decide_ext (S (S i) = S (length rs)) (S i = length rs))
      by lia.
Qed.

(** ** The grouped categories *)

(** C1 as stated fails on the drives: of two devices, the second
    without a live value, only the first gets a group, and the record of
    the second is in no group. *)
Lemma drives_section_runs_counterexample :
  let m := DriveTemp.base sample_disks in
  is_empty m = false /\
  length (records m) = 2 /\
  length (runs p0 (records m)) = 2 /\
  length (emitted (drive_groups sample_disks)) = 1 /\
  concat (map g_rows (emitted (drive_groups sample_disks))) =
    [current_row m (sample_key "sda" "" "temperature")] /\
  drives_section sample_disks [] =
    append_formatted_section (drive_title sample_disks "sda")
      [current_row m (sample_key "sda" "" "temperature")]
      drive_headers drive_column_widths drive_justifications [].
Proof. repeat split. Qed.

(** C1, amended: each grouped category hands the renderer one group
    per run of the discriminator, in order.  For memory and fans every
    group has rows, so there are as many rendered groups as runs, and the
    rows of the groups are the rows of the records, each once and in
    order.  For drives and GPUs a record without a current value has no
    row and a group without rows is not rendered: the rendered drive
    groups are those of the runs with a sampled record, and the rows of
    statistics of the rendered groups are the rows of the sampled
    records, each once and in order. *)
Theorem grouped_sections_follow_runs (mem fans : Monitor)
    (gpus : GPUData.t) (drives : DriveTemp.t) (lines : list string) :
  is_empty fans = false ->
  is_empty (GPUData.base gpus) = false ->
  records (GPUData.base gpus) <> [] ->
  is_empty (DriveTemp.base drives) = false ->
  (mem_section mem lines =
     emit_groups mem_column_widths mem_justifications (mem_groups mem)
       lines /\
   emitted (mem_groups mem) = mem_groups mem /\
   length (mem_groups mem) = length (runs p0 (records mem)) /\
   concat (map g_rows (mem_groups mem)) =
     map (stat_row mem) (records mem)) /\
  (fans_section fans lines =
     emit_groups fan_column_widths fan_justifications (fan_groups fans)
       lines /\
   emitted (fan_groups fans) = fan_groups fans /\
   length (fan_groups fans) = length (runs p0 (records fans)) /\
   concat (map g_rows (fan_groups fans)) =
     map (current_row fans) (records fans)) /\
  (gpus_section gpus lines =
     emit_groups gpu_column_widths gpu_justifications (gpu_groups gpus)
       lines /\
   length (gpu_groups gpus) =
     length (runs p0 (records (GPUData.base gpus))) /\
   stat_rows (concat (map g_rows (emitted (gpu_groups gpus)))) =
     map (current_row (GPUData.base gpus))
       (sampled (GPUData.base gpus) (records (GPUData.base gpus)))) /\
  (drives_section drives lines =
     emit_groups drive_column_widths drive_justifications
       (drive_groups drives) lines /\
   emitted (drive_groups drives) =
     map (drive_group drives)
       (filter (fun r => sampled (DriveTemp.base drives) r <> [])
          (runs p0 (records (DriveTemp.base drives)))) /\
   concat (map g_rows (emitted (drive_groups drives))) =
     map (current_row (DriveTemp.base drives))
       (sampled (DriveTemp.base drives)
          (records (DriveTemp.base drives)))).
Proof.
  intros Hfans Hgpus Hrecs Hdrives.
  split; [| split; [| split]].
  - split; [apply mem_section_groups |].
    apply (groups_partition p0 (stat_row mem)), mem_groups_rows.
  - split; [by rewrite fans_section_groups, Hfans |].
    apply (groups_partition p0 (current_row fans)), fan_groups_rows.
  - split; [| apply gpu_groups_partition].
    rewrite gpus_section_groups, Hgpus.
    by destruct (records (GPUData.base gpus)).
  - split; [by rewrite drives_section_groups, Hdrives |].
    apply drive_groups_partition.
Qed.

Lemma grouped_sections_follow_runs_witness :
  is_empty sample_fans = false /\
  is_empty (GPUData.base sample_gpu) = false /\
  records (GPUData.base sample_gpu) <> [] /\
  is_empty (DriveTemp.base sample_disks) = false /\
  length (runs p0 (records sample_mem)) = 2 /\
  length (mem_groups sample_mem) = length (runs p0 (records sample_mem)) /\
  concat (map g_rows (fan_groups sample_fans)) =
    map (current_row sample_fans) (records sample_fans) /\
  length (gpu_groups sample_gpu) =
    length (runs p0 (records (GPUData.base sample_gpu))) /\
  concat (map g_rows (emitted (drive_groups sample_disks))) =
    map (current_row (DriveTemp.base sample_disks))
      (sampled (DriveTemp.base sample_disks)
         (records (DriveTemp.base sample_disks))).
Proof.
  assert (Hrecs : records (GPUData.base sample_gpu) <> []) by discriminate.
  pose proof (grouped_sections_follow_runs sample_mem sample_fans sample_gpu
                sample_disks [] eq_refl eq_refl Hrecs eq_refl)
    as ((_ & _ & Hmem & _) & (_ & _ & _ & Hfan) & (_ & Hgpu & _)
        & (_ & _ & Hdrive)).
  repeat split; try reflexivity; assumption.
Defined.

(** A single run is one group. *)
Lemma runs_single {A} (key : A -> string) (xs : list A) (k : string) :
  xs <> [] -> Forall (fun x => key x = k) xs -> runs key xs = [xs].
Proof.
  intros Hne Hall. rewrite <- (app_nil_r xs) at 1.
  by rewrite (runs_app_cut key xs [] k).
Qed.

(** C3: the driver version is reset at the top of every iteration, so
    a group of two or more records of the vendor nvidia is titled by the
    bare vendor: the title has no driver version. *)
Theorem gpus_section_nvidia_title (gpus : GPUData.t) (y1 y2 : Params)
    (ys : list Params) (lines : list string) :
  is_empty (GPUData.base gpus) = false ->
  records (GPUData.base gpus) = y1 :: y2 :: ys ->
  Forall (fun y => p0 y = "nvidia") (y1 :: y2 :: ys) ->
  gpus_section gpus lines =
  append_formatted_section "nvidia"
    (gpu_run_rows gpus "nvidia" "" (y1 :: y2 :: ys))
    gpu_headers gpu_column_widths gpu_justifications lines.
Proof.
  intros Hflag Hrecs Hall.
  rewrite gpus_section_groups, Hflag. unfold gpu_groups. rewrite Hrecs.
  rewrite (runs_single p0 _ "nvidia") by done.
  apply Forall_inv in Hall as Hy1.
  cbn [gpu_groups_from gpu_last_suffix emit_groups for_each run_key
       g_title g_headers g_rows].
  by rewrite bind_ok, Hy1, append_nil_r.
Qed.

Lemma gpus_section_nvidia_title_witness :
  let m := GPUData.base sample_unnamed_gpu in
  is_empty m = false /\
  GPUData.get_driver_version sample_unnamed_gpu = "535.183" /\
  Forall (fun y => p0 y = "nvidia") (records m) /\
  gpus_section sample_unnamed_gpu [] =
    append_formatted_section "nvidia"
      [current_row m (sample_key "nvidia" "" "temperature");
       current_row m (sample_key "nvidia" "" "power")]
      gpu_headers gpu_column_widths gpu_justifications [].
Proof.
  assert (Hall : Forall (fun y => p0 y = "nvidia")
                   (records (GPUData.base sample_unnamed_gpu))).
  { repeat constructor. }
  split; [reflexivity |]. split; [reflexivity |]. split; [exact Hall |].
  exact (gpus_section_nvidia_title sample_unnamed_gpu
           (sample_key "nvidia" "" "temperature")
           (sample_key "nvidia" "" "power") [] [] eq_refl eq_refl Hall).
Defined.

(** The title that a single record of nvidia gets shows what the other
    titles miss. *)
Lemma gpus_section_single_record (gpus : GPUData.t) (y : Params)
    (lines : list string) :
  is_empty (GPUData.base gpus) = false ->
  records (GPUData.base gpus) = [y] ->
  p0 y = "nvidia" ->
  gpus_section gpus lines =
  append_formatted_section
    ("nvidia - " +:+ GPUData.get_driver_version gpus)
    (gpu_run_rows gpus "nvidia" "" [y])
    gpu_headers gpu_column_widths gpu_justifications lines.
Proof.
  intros Hflag Hrecs Hy.
  rewrite gpus_section_groups, Hflag. unfold gpu_groups. rewrite Hrecs.
  cbn [runs gpu_groups_from gpu_last_suffix emit_groups for_each run_key
       g_title g_headers g_rows].
  rewrite bind_ok, Hy. by rewrite bool_decide_eq_true_2.
Qed.

(** ** Categories that are flagged empty *)

(** C2 as stated fails on memory and on CPU frequency and usage,
    which are rendered from their records whatever the flag says. *)
Lemma flagged_memory_counterexample :
  let mem := sample_monitor [sample_key "DDR5-A" "" "ch0"] true in
  let mhz := sample_monitor [sample_key "" "" "Core 0"] true in
  let usage := sample_monitor [sample_key "" "" "cpu0"] true in
  is_empty mem = true /\ is_empty mhz = true /\ is_empty usage = true /\
  (exists out, mem_section mem [] = Ok out /\ length out = 4) /\
  (exists out, cpu_section mhz usage [] = Ok out /\ length out = 4).
Proof.
  repeat split; eexists; (split; [reflexivity | reflexivity]).
Qed.

(** C2, amended: the CPU temperature, power, fan, GPU and drive
    sections add no line when their category is flagged empty, whatever
    records the category still yields. *)
Theorem flagged_categories_add_nothing (ctemps watts fans : Monitor)
    (gpus : GPUData.t) (drives : DriveTemp.t) (lines : list string) :
  (is_empty ctemps = true -> ctemps_section ctemps lines = Ok lines) /\
  (is_empty watts = true -> watts_section watts lines = Ok lines) /\
  (is_empty fans = true -> fans_section fans lines = Ok lines) /\
  (is_empty (GPUData.base gpus) = true ->
   gpus_section gpus lines = Ok lines) /\
  (is_empty (DriveTemp.base drives) = true ->
   drives_section drives lines = Ok lines).
Proof.
  unfold ctemps_section, watts_section, fans_section, gpus_section,
    drives_section.
  repeat split; by intros ->.
Qed.

Lemma flagged_categories_add_nothing_witness :
  let keys := [sample_key "nvidia" "RTX 4070" "temperature"] in
  is_empty (sample_monitor keys true) = true /\
  ctemps_section (sample_monitor keys true) ["Summary:"] = Ok ["Summary:"] /\
  watts_section (sample_monitor keys true) ["Summary:"] = Ok ["Summary:"] /\
  fans_section (sample_monitor keys true) ["Summary:"] = Ok ["Summary:"] /\
  gpus_section (sample_gpus keys true) ["Summary:"] = Ok ["Summary:"] /\
  drives_section (sample_drives keys true) ["Summary:"] = Ok ["Summary:"].
Proof.
  pose proof (flagged_categories_add_nothing
                (sample_monitor [sample_key "nvidia" "RTX 4070"
                                   "temperature"] true)
                (sample_monitor [sample_key "nvidia" "RTX 4070"
                                   "temperature"] true)
                (sample_monitor [sample_key "nvidia" "RTX 4070"
                                   "temperature"] true)
                (sample_gpus [sample_key "nvidia" "RTX 4070"
                                "temperature"] true)
                (sample_drives [sample_key "nvidia" "RTX 4070"
                                  "temperature"] true)
                ["Summary:"]) as (Hc & Hw & Hf & Hg & Hd).
  split; [reflexivity |].
  split; [exact (Hc eq_refl) |]. split; [exact (Hw eq_refl) |].
  split; [exact (Hf eq_refl) |]. split; [exact (Hg eq_refl) |].
  exact (Hd eq_refl).
Defined.

(** ** The document *)

Lemma append_formatted_section_prefix (title : string)
    (data_rows : list row) (headers : row) (col_widths : list nat)
    (justifications : list just) (lines out : list string) :
  append_formatted_section title data_rows headers col_widths
    justifications lines = Ok out ->
  lines `prefix_of` out.
Proof.
  rewrite append_formatted_section_lines.
  destruct data_rows as [|r rs]; [by intros [= <-] |].
  destruct (section_lines title (r :: rs) headers col_widths
              justifications) as [sec|e]; cbn [bind]; [| done].
  intros [= <-]. by eexists.
Qed.

Lemma mem_section_prefix (mem : Monitor) (lines out : list string) :
  mem_section mem lines = Ok out -> lines `prefix_of` out.
Proof. rewrite mem_section_groups. apply emit_groups_prefix. Qed.

Lemma cpu_section_prefix (mhz usage : Monitor) (lines out : list string) :
  cpu_section mhz usage lines = Ok out -> lines `prefix_of` out.
Proof. apply append_formatted_section_prefix. Qed.

Lemma ctemps_section_prefix (ctemps : Monitor) (lines out : list string) :
  ctemps_section ctemps lines = Ok out -> lines `prefix_of` out.
Proof.
  rewrite ctemps_section_rows. destruct (is_empty ctemps).
  - by intros [= <-].
  - apply append_formatted_section_prefix.
Qed.

Lemma watts_section_prefix (watts : Monitor) (lines out : list string) :
  watts_section watts lines = Ok out -> lines `prefix_of` out.
Proof.
  rewrite watts_section_rows. destruct (is_empty watts).
  - by intros [= <-].
  - apply append_formatted_section_prefix.
Qed.

Lemma fans_section_prefix (fans : Monitor) (lines out : list string) :
  fans_section fans lines = Ok out -> lines `prefix_of` out.
Proof.
  rewrite fans_section_groups. destruct (is_empty fans).
  - by intros [= <-].
  - apply emit_groups_prefix.
Qed.

Lemma gpus_section_prefix (gpus : GPUData.t) (lines out : list string) :
  gpus_section gpus lines = Ok out -> lines `prefix_of` out.
Proof.
  rewrite gpus_section_groups. destruct (is_empty (GPUData.base gpus)).
  - by intros [= <-].
  - destruct (records (GPUData.base gpus)); [done |].
    apply emit_groups_prefix.
Qed.

Lemma drives_section_prefix (drives : DriveTemp.t)
    (lines out : list string) :
  drives_section drives lines = Ok out -> lines `prefix_of` out.
Proof.
  rewrite drives_section_groups. destruct (is_empty (DriveTemp.base drives)).
  - by intros [= <-].
  - apply emit_groups_prefix.
Qed.

(** The lines of the preamble. *)
Lemma preamble_lines (output_data : OutputData) :
  preamble output_data =
  ["Summary:" +:+ nl +:+ "Model: " +:+ model_name output_data +:+ nl +:+
   "Start Time: " +:+ time output_data +:+ nl;
   "Runtime: " +:+ str_number (run_time output_data) +:+ nl +:+
   "CPU: " +:+ CPUFreq.get_model (mhz output_data) +:+ nl;
   "Memory SKUs:" +:+ nl]
  ++ map (fun sku => "DIMM: " +:+ sku +:+ nl)
       (MemUsage.get_mem_skus (mem output_data)).
Proof. unfold preamble. by rewrite foldl_snoc. Qed.

(** The sections come after the preamble. *)
Lemma summary_lines_prefix (output_data : OutputData) (lines : list string) :
  summary_lines output_data = Ok lines ->
  preamble output_data `prefix_of` lines.
Proof.
  unfold summary_lines.
  destruct (mem_section _ _) as [l1|] eqn:H1; cbn [bind]; [| done].
  destruct (cpu_section _ _ _) as [l2|] eqn:H2; cbn [bind]; [| done].
  destruct (ctemps_section _ _) as [l3|] eqn:H3; cbn [bind]; [| done].
  destruct (watts_section _ _) as [l4|] eqn:H4; cbn [bind]; [| done].
  destruct (fans_section _ _) as [l5|] eqn:H5; cbn [bind]; [| done].
  destruct (gpus_section _ _) as [l6|] eqn:H6; cbn [bind]; [| done].
  destruct (drives_section _ _) as [l7|] eqn:H7; cbn [bind]; [| done].
  intros [= <-].
  apply mem_section_prefix in H1. apply cpu_section_prefix in H2.
  apply ctemps_section_prefix in H3. apply watts_section_prefix in H4.
  apply fans_section_prefix in H5. apply gpus_section_prefix in H6.
  apply drives_section_prefix in H7.
  by repeat (etrans; [eassumption |]).
Qed.

(** C10: on a machine with a named GPU the preamble is built, but the
    device row of the GPU section makes the renderer raise [IndexError],
    and [write_summary] raises before it opens the file: no document, and
    so no preamble, is written. *)
Theorem write_summary_raises_on_named_gpu :
  is_empty (GPUData.base (gpus sample_report)) = false /\
  records (GPUData.base (gpus sample_report)) =
    [sample_key "nvidia" "RTX 4070" "temperature";
     sample_key "nvidia" "RTX 4070" "power"] /\
  length (preamble sample_report) = 5 /\
  write_summary sample_report ∅ = Raise IndexError.
Proof. repeat split; reflexivity. Qed.

(** A call of [write_summary] that returns has written a document that
    begins with the preamble: the summary, model and start time, the
    runtime and the CPU model, the memory heading and one DIMM line per
    memory SKU; so the file it wrote is not empty, and no other file is
    touched. *)
Theorem write_summary_preamble (output_data : OutputData)
    (fs fs' : gmap string string) :
  write_summary output_data fs = Ok fs' ->
  exists rest : string,
    fs' !! summary_fn output_data =
      Some (join (preamble output_data) +:+ rest) /\
    join (preamble output_data) =
      "Summary:" +:+ nl +:+ "Model: " +:+ model_name output_data +:+ nl
      +:+ "Start Time: " +:+ time output_data +:+ nl
      +:+ "Runtime: " +:+ str_number (run_time output_data) +:+ nl
      +:+ "CPU: " +:+ CPUFreq.get_model (mhz output_data) +:+ nl
      +:+ "Memory SKUs:" +:+ nl
      +:+ join (map (fun sku => "DIMM: " +:+ sku +:+ nl)
                  (MemUsage.get_mem_skus (mem output_data))) /\
    0 < String.length (join (preamble output_data) +:+ rest) /\
    forall path : string,
      path <> summary_fn output_data -> fs' !! path = fs !! path.
Proof.
  unfold write_summary.
  destruct (summary_lines output_data) as [lines|e] eqn:Hlines;
    cbn [bind]; [| done].
  intros [= <-].
  destruct (summary_lines_prefix _ _ Hlines) as [suffix ->].
  exists (join suffix). split; [| split; [| split]].
  - by rewrite lookup_insert_eq, join_app.
  - rewrite preamble_lines. cbn [app join foldr].
    by rewrite !append_assoc.
  - rewrite preamble_lines. cbn [app join foldr].
    rewrite !length_append. simpl. lia.
  - intros path Hne. by rewrite lookup_insert_ne.
Qed.

Lemma write_summary_preamble_witness :
  let output_data := sample_output_data "log.csv" [] in
  let text :=
    "Summary:" +:+ nl +:+ "Model: oryp11" +:+ nl
    +:+ "Start Time: 2024-07-30 12:00" +:+ nl
    +:+ "Runtime: 60.0" +:+ nl +:+ "CPU: Ryzen 9" +:+ nl
    +:+ "Memory SKUs:" +:+ nl +:+ "DIMM: KF556C40" +:+ nl in
  write_summary output_data ∅ = Ok {[ "summary.txt" := text ]} /\
  exists rest : string,
    ({[ "summary.txt" := text ]} : gmap string string) !! "summary.txt" =
      Some (join (preamble output_data) +:+ rest) /\
    0 < String.length (join (preamble output_data) +:+ rest).
Proof.
  assert (Hw : write_summary (sample_output_data "log.csv" []) ∅ =
               Ok {[ "summary.txt" :=
                     "Summary:" +:+ nl +:+ "Model: oryp11" +:+ nl
                     +:+ "Start Time: 2024-07-30 12:00" +:+ nl
                     +:+ "Runtime: 60.0" +:+ nl +:+ "CPU: Ryzen 9" +:+ nl
                     +:+ "Memory SKUs:" +:+ nl +:+ "DIMM: KF556C40"
                     +:+ nl ]}).
  { reflexivity. }
  split; [exact Hw |].
  destruct (write_summary_preamble _ _ _ Hw) as (rest & H1 & _ & H2 & _).
  exists rest. split; [exact H1 | exact H2].
Defined.

(** ** When the report is written *)

Lemma section_lines_ok (title : string) (data_rows : list row)
    (headers : row) (col_widths : list nat) (justifications : list just) :
  row_fits col_widths justifications headers ->
  Forall (row_fits col_widths justifications) data_rows ->
  exists sec,
    section_lines title data_rows headers col_widths justifications = Ok sec.
Proof.
  intros [Hlen Hall] Hrows. unfold section_lines.
  destruct (format_line_ok headers col_widths justifications Hlen Hall)
    as [h ->].
  destruct (format_rows_ok data_rows col_widths justifications Hrows)
    as [body ->].
  by eexists.
Qed.

Lemma append_formatted_section_ok (title : string) (data_rows : list row)
    (headers : row) (col_widths : list nat) (justifications : list just)
    (lines : list string) :
  row_fits col_widths justifications headers ->
  Forall (row_fits col_widths justifications) data_rows ->
  exists out,
    append_formatted_section title data_rows headers col_widths
      justifications lines = Ok out.
Proof.
  intros Hh Hrows. rewrite append_formatted_section_lines.
  destruct data_rows as [|r rs]; [by eexists |].
  destruct (section_lines_ok title (r :: rs) headers col_widths
              justifications Hh Hrows) as [sec ->].
  by eexists.
Qed.

Lemma emit_groups_ok (col_widths : list nat) (justifications : list just)
    (gs : list group) (lines : list string) :
  Forall (fun g =>
            g_rows g <> [] ->
            row_fits col_widths justifications (g_headers g) /\
            Forall (row_fits col_widths justifications) (g_rows g)) gs ->
  exists out, emit_groups col_widths justifications gs lines = Ok out.
Proof.
  unfold emit_groups. intros Hgs. revert lines.
  induction Hgs as [|g gs Hg _ IH]; intros lines; cbn [for_each].
  - by eexists.
  - destruct (g_rows g) as [|r rs] eqn:Hrows.
    + cbn [append_formatted_section bind]. apply IH.
    + destruct Hg as [Hh Hr]; [done |].
      destruct (append_formatted_section_ok (g_title g) (r :: rs)
                  (g_headers g) col_widths justifications lines Hh Hr)
        as [out ->].
      cbn [bind]. apply IH.
Qed.

Lemma stat_row_fits (m : Monitor) (params : Params) (col_widths : list nat)
    (justifications : list just) :
  length col_widths <= 4 ->
  row_fits col_widths justifications (stat_row m params).
Proof.
  intros Hlen. split; [simpl; lia |].
  repeat constructor; by eexists.
Qed.

Lemma current_row_fits (m : Monitor) (params : Params)
    (col_widths : list nat) (justifications : list just) :
  length col_widths <= 5 ->
  is_Some (get_current m params) ->
  row_fits col_widths justifications (current_row m params).
Proof.
  intros Hlen [c Hc]. split; [simpl; lia |].
  unfold current_row. rewrite Hc.
  repeat constructor; by eexists.
Qed.

(** The memory section is rendered unless the first memory type is the
    empty text, which leaves the first group without headers. *)
Lemma mem_section_ok (mem : Monitor) (lines : list string) :
  (forall y, head (records mem) = Some y -> p0 y <> "") ->
  exists out, mem_section mem lines = Ok out.
Proof.
  intros Hfirst. rewrite mem_section_groups. apply emit_groups_ok.
  unfold mem_groups.
  destruct (records mem) as [|y ys]; [constructor |].
  destruct (runs_head p0 y ys) as (r & rs & ->).
  cbn [run_key].
  rewrite bool_decide_eq_false_2 by by apply Hfirst.
  assert (Hgroup : forall r',
    row_fits mem_column_widths mem_justifications
      (g_headers (mem_group mem r')) /\
    Forall (row_fits mem_column_widths mem_justifications)
      (g_rows (mem_group mem r'))).
  { intros r'. split.
    - split; [simpl; lia |]. repeat constructor; by eexists.
    - apply Forall_forall. intros row [p [-> _]]%list_elem_of_fmap.
      apply stat_row_fits. simpl. lia. }
  constructor; [intros _; apply Hgroup |].
  apply Forall_forall. intros g [r' [-> _]]%list_elem_of_fmap.
  intros _. apply Hgroup.
Qed.

Lemma cpu_section_ok (mhz usage : Monitor) (lines : list string) :
  exists out, cpu_section mhz usage lines = Ok out.
Proof.
  unfold cpu_section. apply append_formatted_section_ok.
  - split; [simpl; lia |]. repeat constructor; by eexists.
  - rewrite cpu_data_rows_zip.
    apply Forall_forall. intros r [[mp up] [-> _]]%list_elem_of_fmap.
    split; [simpl; lia |]. repeat constructor; by eexists.
Qed.

Lemma ctemps_section_ok (ctemps : Monitor) (lines : list string) :
  exists out, ctemps_section ctemps lines = Ok out.
Proof.
  rewrite ctemps_section_rows. destruct (is_empty ctemps); [by eexists |].
  apply append_formatted_section_ok.
  - split; [simpl; lia |]. repeat constructor; by eexists.
  - apply Forall_forall. intros r [p [-> _]]%list_elem_of_fmap.
    apply stat_row_fits. simpl. lia.
Qed.

Lemma watts_section_ok (watts : Monitor) (lines : list string) :
  exists out, watts_section watts lines = Ok out.
Proof.
  rewrite watts_section_rows. destruct (is_empty watts); [by eexists |].
  apply append_formatted_section_ok.
  - split; [simpl; lia |]. repeat constructor; by eexists.
  - apply Forall_forall. intros r [p [-> _]]%list_elem_of_fmap.
    apply stat_row_fits. simpl. lia.
Qed.

(** The fan section is rendered when every fan has a current value. *)
Lemma fans_section_ok (fans : Monitor) (lines : list string) :
  is_empty fans = true \/
  Forall (fun params => is_Some (get_current fans params)) (records fans) ->
  exists out, fans_section fans lines = Ok out.
Proof.
  intros Hfans. rewrite fans_section_groups.
  destruct (is_empty fans); [by eexists |].
  destruct Hfans as [|Hall]; [done |].
  apply emit_groups_ok. unfold fan_groups.
  apply Forall_forall. intros g [r [-> Hr]]%list_elem_of_fmap. intros _.
  split.
  - split; [simpl; lia |]. repeat constructor; by eexists.
  - apply Forall_forall. intros row [p [-> Hp]]%list_elem_of_fmap.
    apply current_row_fits; [simpl; lia |].
    eapply Forall_forall in Hall; [exact Hall |].
    rewrite <- (runs_concat p0 (records fans)).
    apply list_elem_of_In, in_concat. exists r.
    split; by apply list_elem_of_In.
Qed.

(** The drive section is always rendered: only sampled records give rows. *)
Lemma drives_section_ok (drives : DriveTemp.t) (lines : list string) :
  exists out, drives_section drives lines = Ok out.
Proof.
  rewrite drives_section_groups.
  destruct (is_empty (DriveTemp.base drives)); [by eexists |].
  apply emit_groups_ok. unfold drive_groups.
  apply Forall_forall. intros g [r [-> Hr]]%list_elem_of_fmap. intros _.
  split.
  - split; [simpl; lia |]. repeat constructor; by eexists.
  - apply Forall_forall. intros row [p [-> Hp]]%list_elem_of_fmap.
    apply current_row_fits; [simpl; lia |].
    unfold sampled in Hp. by apply list_elem_of_filter in Hp as [Hp _].
Qed.

(** [write_summary] returns, and so writes the report, on a machine whose
    GPU category is flagged empty, whose fans all have a current value
    and whose first memory type is not the empty text. *)
Lemma write_summary_returns (output_data : OutputData)
    (fs : gmap string string) :
  (forall y,
     head (records (MemUsage.base (mem output_data))) = Some y ->
     p0 y <> "") ->
  is_empty (fans output_data) = true \/
  Forall (fun params => is_Some (get_current (fans output_data) params))
    (records (fans output_data)) ->
  is_empty (GPUData.base (gpus output_data)) = true ->
  exists lines,
    summary_lines output_data = Ok lines /\
    write_summary output_data fs =
      Ok (<[summary_fn output_data := join lines]> fs).
Proof.
  intros Hmem Hfans Hgpus. unfold write_summary, summary_lines.
  destruct (mem_section_ok (MemUsage.base (mem output_data))
              (preamble output_data) Hmem) as [l1 ->]. cbn [bind].
  destruct (cpu_section_ok (CPUFreq.base (mhz output_data))
              (usage output_data) l1) as [l2 ->]. cbn [bind].
  destruct (ctemps_section_ok (ctemps output_data) l2) as [l3 ->].
  cbn [bind].
  destruct (watts_section_ok (watts output_data) l3) as [l4 ->].
  cbn [bind].
  destruct (fans_section_ok (fans output_data) l4 Hfans) as [l5 ->].
  cbn [bind].
  unfold gpus_section. rewrite Hgpus. cbn [negb bind].
  destruct (drives_section_ok (drives output_data) l5) as [l7 ->].
  cbn [bind]. by eexists.
Qed.

(** * Further properties of the code *)

(** ** The line formatter: outcomes *)

Lemma str_format_none (fields : list (just * nat)) (args : list value) :
  VNone ∈ take (length fields) args ->
  str_format fields args = Raise TypeError.
Proof.
  revert args. induction fields as [|[j width] fields IH]; intros args;
    simpl.
  - rewrite take_0. by intros ?%elem_of_nil.
  - destruct args as [|v args]; simpl; [by intros ?%elem_of_nil |].
    intros [<-|Hin]%elem_of_cons; [done |].
    destruct v; simpl; [| | done]; by rewrite (IH args Hin).
Qed.

Lemma not_none_printable (vs : list value) :
  VNone ∉ vs -> Forall (fun v => is_Some (display v)) vs.
Proof.
  intros Hnone. apply Forall_forall. intros v Hv.
  destruct v; simpl; [by eexists | by eexists | done].
Qed.

(** X1: what a call of [format_line] gives, by its items: [TypeError] when an
    item that a field takes is [None]; otherwise [IndexError] when there
    are fewer items than fields; otherwise a line. *)
Theorem format_line_outcome (items : list value) (column_widths : list nat)
    (justifications : list just) :
  let n := field_count column_widths justifications in
  (VNone ∈ take n items ->
   format_line items column_widths justifications = Raise TypeError) /\
  (VNone ∉ take n items -> length items < n ->
   format_line items column_widths justifications = Raise IndexError) /\
  (VNone ∉ take n items -> n <= length items ->
   exists line,
     format_line items column_widths justifications = Ok line).
Proof.
  intros n.
  assert (Hn : length (zip justifications column_widths) = n).
  { subst n. unfold field_count. rewrite length_zip_with. lia. }
  unfold format_line. split; [| split].
  - intros Hin. rewrite str_format_none; [done | by rewrite Hn].
  - intros Hnone Hlen.
    rewrite take_ge in Hnone by lia.
    rewrite str_format_short; [done | lia | by apply not_none_printable].
  - intros Hnone Hlen.
    rewrite str_format_surplus, Hn.
    destruct (str_format_ok (zip justifications column_widths)
                (take n items)) as [s ->].
    + rewrite Hn, length_take. lia.
    + by apply not_none_printable.
    + by eexists.
Qed.

Lemma format_line_outcome_witness :
  format_line [VStr "fan1"; VNone; VNum (NInt 900)] [15; 15; 15]
    [JLeft; JRight; JRight] = Raise TypeError /\
  format_line [VStr "fan1"; VNum (NInt 1200)] [15; 15; 15]
    [JLeft; JRight; JRight] = Raise IndexError /\
  (exists line,
     format_line [VStr "fan1"; VNum (NInt 1200); VNone] [15; 15]
       [JLeft; JRight; JRight] = Ok line).
Proof.
  split; [| split].
  - apply (format_line_outcome [VStr "fan1"; VNone; VNum (NInt 900)]
             [15; 15; 15] [JLeft; JRight; JRight]).
    simpl. apply elem_of_cons. right. apply elem_of_cons. by left.
  - apply (format_line_outcome [VStr "fan1"; VNum (NInt 1200)]
             [15; 15; 15] [JLeft; JRight; JRight]).
    + simpl. intros [?|[?|?%elem_of_nil]%elem_of_cons]%elem_of_cons;
        done.
    + unfold field_count. simpl. lia.
  - apply (format_line_outcome [VStr "fan1"; VNum (NInt 1200); VNone]
             [15; 15] [JLeft; JRight; JRight]).
    + simpl. intros [?|[?|?%elem_of_nil]%elem_of_cons]%elem_of_cons;
        done.
    + unfold field_count. simpl. lia.
Defined.

(** ** The line formatter: aligned columns *)

Lemma str_format_fits_length (fields : list (just * nat))
    (args : list value) (s : string) :
  str_format fields args = Ok s ->
  (forall i j width v text,
     fields !! i = Some (j, width) -> args !! i = Some v ->
     display v = Some text -> String.length text <= width) ->
  String.length s = sum_list (fields.*2).
Proof.
  revert args s.
  induction fields as [|[j width] fields IH]; intros args s; simpl.
  - by intros [= <-].
  - destruct args as [|v args]; [done |].
    rewrite format_value_display.
    destruct (display v) as [text|] eqn:Hv; simpl; [| done].
    destruct (str_format fields args) as [rest|e] eqn:Hrest; simpl;
      [| done].
    intros [= <-] Hfit.
    rewrite length_append, pad_length.
    rewrite (IH args rest Hrest).
    + pose proof (Hfit 0 j width v text eq_refl eq_refl Hv).
      by rewrite Nat.max_l.
    + intros i j' w' v' text' Hf Ha. by apply (Hfit (S i) j').
Qed.

(** X2: when every displayed text fits its column, the line is as long as the
    widths add up to, and the line terminator: the lines of a table have
    one length and their columns are aligned. *)
Theorem format_line_aligned (items : list value) (column_widths : list nat)
    (justifications : list just) (line : string) :
  length column_widths <= length justifications ->
  format_line items column_widths justifications = Ok line ->
  (forall i v width text,
     items !! i = Some v -> column_widths !! i = Some width ->
     display v = Some text -> String.length text <= width) ->
  String.length line = sum_list column_widths + 1.
Proof.
  intros Hlen. unfold format_line.
  destruct (str_format (zip justifications column_widths) items)
    as [s|e] eqn:Hs; simpl; [| done].
  intros [= <-] Hfit.
  rewrite length_append.
  rewrite (str_format_fits_length _ _ _ Hs).
  - by rewrite snd_zip.
  - intros i j width v text Hf Hv Hd.
    apply lookup_zip_with_Some in Hf as (j' & w' & [= <- <-] & Hj & Hw).
    by eapply Hfit.
Qed.

Lemma format_line_aligned_witness :
  let line :=
    "Core 0" +:+ spaces 9 +:+ spaces 8 +:+ "41" +:+ spaces 6 +:+ "55.5"
    +:+ nl in
  format_line [VStr "Core 0"; VNum (NInt 41); VNum (NFloat "55.5")]
    [15; 10; 10] [JLeft; JRight; JRight] = Ok line /\
  String.length line = 15 + 10 + 10 + 1.
Proof.
  split; [reflexivity |].
  apply (format_line_aligned
           [VStr "Core 0"; VNum (NInt 41); VNum (NFloat "55.5")]
           [15; 10; 10] [JLeft; JRight; JRight] _ (le_n 3) eq_refl).
  intros [|[|[|i]]] v width text Hv Hw Hd; simpl in *;
    simplify_eq; vm_compute in Hd; injection Hd as <-; vm_compute; lia.
Defined.

(** ** The line formatter: one line per row *)

Lemma count_nl_append (s1 s2 : string) :
  count_nl (s1 +:+ s2) = count_nl s1 + count_nl s2.
Proof.
  induction s1 as [|c s1 IH]; [done |].
  rewrite append_cons. simpl. rewrite IH. lia.
Qed.

Lemma count_nl_spaces (n : nat) : count_nl (spaces n) = 0.
Proof. induction n as [|n IH]; [done | exact IH]. Qed.

Lemma count_nl_pad (j : just) (width : nat) (s : string) :
  count_nl (pad j width s) = count_nl s.
Proof.
  unfold pad. destruct j;
    rewrite ?count_nl_append, ?count_nl_spaces; lia.
Qed.

Lemma count_nl_join (parts : list string) :
  Forall (fun s => count_nl s = 0) parts -> count_nl (join parts) = 0.
Proof.
  induction 1 as [|s parts Hs _ IH]; [done |].
  simpl. rewrite count_nl_append. lia.
Qed.

(** X3: a returned line is one line of the report, terminated once and at its
    end, as long as no displayed text holds a line terminator itself. *)
Theorem format_line_one_terminator (items : list value)
    (column_widths : list nat) (justifications : list just)
    (line : string) :
  format_line items column_widths justifications = Ok line ->
  (forall i v text,
     i < field_count column_widths justifications ->
     items !! i = Some v -> display v = Some text -> count_nl text = 0) ->
  count_nl line = 1 /\
  exists s, line = s +:+ nl /\ count_nl s = 0.
Proof.
  unfold format_line.
  destruct (str_format (zip justifications column_widths) items)
    as [s|e] eqn:Hs; simpl; [| done].
  intros [= <-] Htexts.
  destruct (str_format_cells _ _ _ Hs) as (cells & -> & Hlen & Hcells).
  assert (Hzero : count_nl (join cells) = 0).
  { apply count_nl_join, Forall_lookup. intros i cell Hi.
    destruct (Hcells i cell Hi)
      as (j & width & v & text & Hf & Hv & Hd & ->).
    rewrite count_nl_pad. apply (Htexts i v text); [| done | done].
    apply lookup_lt_Some in Hi. rewrite Hlen, length_zip_with in Hi.
    unfold field_count. lia. }
  split.
  - rewrite count_nl_append, Hzero. reflexivity.
  - by exists (join cells).
Qed.

Lemma format_line_one_terminator_witness :
  let line := "fan1" +:+ spaces 11 +:+ spaces 11 +:+ "1200" +:+ nl in
  format_line [VStr "fan1"; VNum (NInt 1200)] [15; 15] [JLeft; JRight]
    = Ok line /\
  count_nl line = 1.
Proof.
  split; [reflexivity |].
  apply (format_line_one_terminator [VStr "fan1"; VNum (NInt 1200)]
           [15; 15] [JLeft; JRight] _ eq_refl).
  intros [|[|i]] v text Hi Hv Hd; simpl in *;
    simplify_eq; vm_compute in Hd; by injection Hd as <-.
Defined.

(** ** Sections of one group *)

Lemma append_formatted_section_fits (title : string) (data_rows : list row)
    (headers : row) (col_widths : list nat) (justifications : list just)
    (lines : list string) :
  row_fits col_widths justifications headers ->
  Forall (row_fits col_widths justifications) data_rows ->
  data_rows <> [] ->
  exists (h : string) (body : list string),
    format_line headers col_widths justifications = Ok h /\
    format_rows data_rows col_widths justifications = Ok body /\
    length body = length data_rows /\
    append_formatted_section title data_rows headers col_widths
      justifications lines = Ok (lines ++ title :: h :: body ++ [nl]).
Proof.
  intros [Hlen Hall] Hrows Hne.
  destruct (format_line_ok headers col_widths justifications Hlen Hall)
    as [h Hh].
  destruct (format_rows_ok data_rows col_widths justifications Hrows)
    as [body Hbody].
  exists h, body. split; [done |]. split; [done |].
  split; [by eapply format_rows_length |].
  rewrite append_formatted_section_lines.
  destruct data_rows as [|r rs]; [done |].
  unfold section_lines. by rewrite Hh, Hbody.
Qed.

(** X4: the CPU temperature and the power sections of a category that is not
    flagged empty: nothing without records; with N records one untitled
    section of one header line, N data lines, one per record and in the
    order of the records, and the blank line.  Neither section raises. *)
Theorem single_group_sections (m : Monitor) (lines : list string) :
  is_empty m = false ->
  (records m = [] ->
   ctemps_section m lines = Ok lines /\ watts_section m lines = Ok lines) /\
  (records m <> [] ->
   (exists (h : string) (body : list string),
      format_line ctemps_headers ctemps_column_widths
        ctemps_justifications = Ok h /\
      format_rows (map (stat_row m) (records m)) ctemps_column_widths
        ctemps_justifications = Ok body /\
      length body = length (records m) /\
      ctemps_section m lines = Ok (lines ++ "" :: h :: body ++ [nl])) /\
   (exists (h : string) (body : list string),
      format_line watts_headers watts_column_widths
        watts_justifications = Ok h /\
      format_rows (map (stat_row m) (records m)) watts_column_widths
        watts_justifications = Ok body /\
      length body = length (records m) /\
      watts_section m lines = Ok (lines ++ "" :: h :: body ++ [nl]))).
Proof.
  intros Hflag. rewrite ctemps_section_rows, watts_section_rows, Hflag.
  split.
  - by intros ->.
  - intros Hne.
    assert (Hrows : forall ws js, length ws <= 4 ->
              Forall (row_fits ws js) (map (stat_row m) (records m))).
    { intros ws js Hws. apply Forall_forall.
      intros r [p [-> _]]%list_elem_of_fmap. by apply stat_row_fits. }
    split.
    + destruct (append_formatted_section_fits ""
                  (map (stat_row m) (records m)) ctemps_headers
                  ctemps_column_widths ctemps_justifications lines)
        as (h & body & Hh & Hbody & Hlen & Hsec).
      * split; [simpl; lia |]. repeat constructor; by eexists.
      * apply Hrows. simpl. lia.
      * by apply map_nonempty.
      * exists h, body. rewrite length_map in Hlen. done.
    + destruct (append_formatted_section_fits ""
                  (map (stat_row m) (records m)) watts_headers
                  watts_column_widths watts_justifications lines)
        as (h & body & Hh & Hbody & Hlen & Hsec).
      * split; [simpl; lia |]. repeat constructor; by eexists.
      * apply Hrows. simpl. lia.
      * by apply map_nonempty.
      * exists h, body. rewrite length_map in Hlen. done.
Qed.

Lemma single_group_sections_witness :
  let m := sample_monitor [sample_key "" "" "Core 0";
                           sample_key "" "" "Core 1"] false in
  is_empty m = false /\
  records m <> [] /\
  exists (h : string) (body : list string),
    length body = 2 /\
    ctemps_section m ["Summary:"] =
      Ok (["Summary:"] ++ "" :: h :: body ++ [nl]).
Proof.
  assert (Hne : records (sample_monitor [sample_key "" "" "Core 0";
                                         sample_key "" "" "Core 1"] false)
                <> []) by discriminate.
  split; [reflexivity |]. split; [exact Hne |].
  destruct (single_group_sections
              (sample_monitor [sample_key "" "" "Core 0";
                               sample_key "" "" "Core 1"] false)
              ["Summary:"] eq_refl) as [_ Hsec].
  destruct (Hsec Hne) as [(h & body & _ & _ & Hlen & Hc) _].
  exists h, body. split; [exact Hlen | exact Hc].
Defined.

(** X5: the sections that never raise: CPU frequency and usage, CPU
    temperature and power hold texts and numbers only, and the drive
    section leaves out the records without a current value. *)
Theorem sections_that_always_return (mhz usage ctemps watts : Monitor)
    (drives : DriveTemp.t) (lines : list string) :
  (exists out, cpu_section mhz usage lines = Ok out) /\
  (exists out, ctemps_section ctemps lines = Ok out) /\
  (exists out, watts_section watts lines = Ok out) /\
  (exists out, drives_section drives lines = Ok out).
Proof.
  split; [apply cpu_section_ok |].
  split; [apply ctemps_section_ok |].
  split; [apply watts_section_ok | apply drives_section_ok].
Qed.

(** ** CPU rows of collections of different lengths *)

(** X6: the CPU rows stop with the shorter of the two collections: there are
    as many rows as the shorter has records, row by row the records at
    the same position, and the other records of the longer collection
    are in no row. *)
Theorem cpu_rows_stop_with_shorter (mhz usage : Monitor) :
  length (cpu_data_rows mhz usage) =
    Nat.min (length (records mhz)) (length (records usage)) /\
  forall (i : nat) (r : row),
    cpu_data_rows mhz usage !! i = Some r ->
    exists mhz_params usage_params,
      records mhz !! i = Some mhz_params /\
      records usage !! i = Some usage_params /\
      r = cpu_row mhz usage (mhz_params, usage_params).
Proof.
  rewrite cpu_data_rows_zip. split.
  - by rewrite length_map, length_zip_with.
  - intros i r Hr. rewrite list_lookup_fmap in Hr.
    destruct (zip (records mhz) (records usage) !! i) as [[mp up]|] eqn:Hz;
      [| done].
    injection Hr as <-.
    apply lookup_zip_with_Some in Hz as (mp' & up' & [= <- <-] & Hm & Hu).
    by exists mp, up.
Qed.

(** ** Memory: the empty memory type *)

(** X7: the memory section by the type of the first memory record: without
    records it adds nothing; when the first type is not the empty text it
    is rendered; when the first type is the empty text the loop never sets
    the headers, and rendering the first group raises [IndexError] on the
    empty header list. *)
Theorem mem_section_outcome (mem : Monitor) (lines : list string) :
  (records mem = [] -> mem_section mem lines = Ok lines) /\
  (forall y, head (records mem) = Some y -> p0 y <> "" ->
             exists out, mem_section mem lines = Ok out) /\
  (forall y, head (records mem) = Some y -> p0 y = "" ->
             mem_section mem lines = Raise IndexError).
Proof.
  split; [| split].
  - intros Hrecs. unfold mem_section. by rewrite Hrecs.
  - intros y Hy Hne. apply mem_section_ok.
    intros y' Hy'. rewrite Hy in Hy'. by injection Hy' as <-.
  - intros y Hhead Hy. rewrite mem_section_groups. unfold mem_groups.
    destruct (records mem) as [|y' ys]; [done |].
    injection Hhead as ->.
    destruct (runs_head p0 y ys) as (r & rs & ->).
    cbn [run_key]. rewrite bool_decide_eq_true_2 by done.
    reflexivity.
Qed.

Lemma mem_section_outcome_witness :
  let mem := sample_monitor [sample_key "" "" "ch0";
                             sample_key "DDR5" "" "ch1"] false in
  head (records mem) = Some (sample_key "" "" "ch0") /\
  mem_section mem [] = Raise IndexError /\
  exists out, mem_section sample_mem [] = Ok out.
Proof.
  split; [reflexivity |]. split.
  - exact (proj2 (proj2 (mem_section_outcome
             (sample_monitor [sample_key "" "" "ch0";
                              sample_key "DDR5" "" "ch1"] false) []))
             (sample_key "" "" "ch0") eq_refl eq_refl).
  - apply (proj1 (proj2 (mem_section_outcome sample_mem []))
             (sample_key "DDR5-A" "" "ch0") eq_refl).
    discriminate.
Defined.

(** ** Fans: a fan without a current value *)

Lemma format_line_none (items : list value) (column_widths : list nat)
    (justifications : list just) :
  row_has_none column_widths justifications items ->
  format_line items column_widths justifications = Raise TypeError.
Proof.
  unfold row_has_none, field_count, format_line. intros Hin.
  rewrite str_format_none; [done |].
  rewrite length_zip_with.
  by rewrite Nat.min_comm.
Qed.

Lemma format_rows_ok_or_type_error (data_rows : list row)
    (col_widths : list nat) (justifications : list just) :
  Forall (fun r => row_fits col_widths justifications r \/
                   row_has_none col_widths justifications r) data_rows ->
  (exists body,
     format_rows data_rows col_widths justifications = Ok body) \/
  format_rows data_rows col_widths justifications = Raise TypeError.
Proof.
  induction 1 as [|r rs Hr _ IH]; simpl; [left; by eexists |].
  destruct Hr as [[Hlen Hall]|Hnone].
  - destruct (format_line_ok r col_widths justifications Hlen Hall)
      as [l ->]. simpl.
    destruct IH as [[body ->]| ->]; [left; by eexists | by right].
  - right. by rewrite format_line_none.
Qed.

Lemma format_rows_type_error (data_rows : list row)
    (col_widths : list nat) (justifications : list just) :
  Forall (fun r => row_fits col_widths justifications r \/
                   row_has_none col_widths justifications r) data_rows ->
  Exists (row_has_none col_widths justifications) data_rows ->
  format_rows data_rows col_widths justifications = Raise TypeError.
Proof.
  induction 1 as [|r rs Hr _ IH]; intros Hex; [by inversion Hex |].
  simpl. destruct Hr as [[Hlen Hall]|Hnone].
  - destruct (format_line_ok r col_widths justifications Hlen Hall)
      as [l Hl]. rewrite Hl. simpl.
    apply Exists_cons in Hex as [Hnone|Hex].
    + rewrite format_line_none in Hl; done.
    + by rewrite IH.
  - by rewrite format_line_none.
Qed.

Lemma emit_groups_type_error (col_widths : list nat)
    (justifications : list just) (gs : list group) (lines : list string) :
  Forall (fun g =>
            row_fits col_widths justifications (g_headers g) /\
            Forall (fun r => row_fits col_widths justifications r \/
                             row_has_none col_widths justifications r)
              (g_rows g)) gs ->
  Exists (fun g => Exists (row_has_none col_widths justifications)
                     (g_rows g)) gs ->
  emit_groups col_widths justifications gs lines = Raise TypeError.
Proof.
  unfold emit_groups. intros Hgs. revert lines.
  induction Hgs as [|g gs [[Hlen Hall] Hrows] _ IH]; intros lines Hex;
    [by inversion Hex |].
  cbn [for_each]. rewrite append_formatted_section_lines.
  destruct (format_line_ok (g_headers g) col_widths justifications
              Hlen Hall) as [h Hh].
  apply Exists_cons in Hex as [Hnone|Hex].
  - destruct (g_rows g) as [|r rs] eqn:Hg; [by inversion Hnone |].
    unfold section_lines. rewrite Hh. cbn [bind].
    by rewrite (format_rows_type_error _ _ _ Hrows Hnone).
  - destruct (g_rows g) as [|r rs] eqn:Hg; [by apply IH |].
    unfold section_lines. rewrite Hh. cbn [bind].
    destruct (format_rows_ok_or_type_error _ _ _ Hrows)
      as [[body ->]| ->]; [| done].
    cbn [bind]. by apply IH.
Qed.

(** X8: the fan section of a category that is not flagged empty is rendered
    when every fan has a current value, and raises [TypeError] as soon as
    one fan has none: the row of that fan holds [None]. *)
Theorem fans_section_outcome (fans : Monitor) (lines : list string) :
  is_empty fans = false ->
  (Forall (fun params => is_Some (get_current fans params)) (records fans)
   -> exists out, fans_section fans lines = Ok out) /\
  (Exists (fun params => get_current fans params = None) (records fans)
   -> fans_section fans lines = Raise TypeError).
Proof.
  intros Hflag. split.
  - intros Hall. apply fans_section_ok. by right.
  - intros Hex. rewrite fans_section_groups, Hflag.
    apply emit_groups_type_error.
    + apply Forall_forall. intros g [r [-> _]]%list_elem_of_fmap.
      split.
      * split; [simpl; lia |]. repeat constructor; by eexists.
      * apply Forall_forall. intros row [p [-> _]]%list_elem_of_fmap.
        destruct (get_current fans p) as [c|] eqn:Hc.
        -- left. apply current_row_fits; [simpl; lia | by rewrite Hc].
        -- right. unfold row_has_none, current_row. rewrite Hc.
           simpl. apply elem_of_cons. right. apply elem_of_cons. by left.
    + apply Exists_exists in Hex as (p & Hp & Hc).
      rewrite <- (runs_concat p0 (records fans)) in Hp.
      apply list_elem_of_In, in_concat in Hp as (r & Hr & Hpr).
      apply Exists_exists. exists (fan_group fans r). split.
      * apply list_elem_of_fmap_2. by apply list_elem_of_In.
      * apply Exists_exists. exists (current_row fans p). split.
        -- apply list_elem_of_fmap_2. by apply list_elem_of_In.
        -- unfold row_has_none, current_row. rewrite Hc.
           simpl. apply elem_of_cons. right. apply elem_of_cons. by left.
Qed.

Lemma fans_section_outcome_witness :
  let fans := sample_monitor [sample_key "nct6775" "" "fan1";
                              aggregate_key "nct6775" "" "fan2"] false in
  is_empty fans = false /\
  Exists (fun params => get_current fans params = None) (records fans) /\
  fans_section fans [] = Raise TypeError.
Proof.
  assert (Hex : Exists
            (fun params =>
               get_current
                 (sample_monitor [sample_key "nct6775" "" "fan1";
                                  aggregate_key "nct6775" "" "fan2"] false)
                 params = None)
            (records
               (sample_monitor [sample_key "nct6775" "" "fan1";
                                aggregate_key "nct6775" "" "fan2"] false))).
  { apply Exists_cons_tl, Exists_cons_hd. reflexivity. }
  split; [reflexivity |]. split; [exact Hex |].
  exact (proj2 (fans_section_outcome
                  (sample_monitor [sample_key "nct6775" "" "fan1";
                                   aggregate_key "nct6775" "" "fan2"] false)
                  [] eq_refl) Hex).
Defined.

(** ** GPUs: when the section raises *)

(** A GPU section that raises stops the report: no file is written. *)
Lemma write_summary_raises_in_gpus (output_data : OutputData)
    (fs : gmap string string) :
  (forall lines, exists e,
     gpus_section (gpus output_data) lines = Raise e) ->
  exists e, write_summary output_data fs = Raise e.
Proof.
  intros Hgpus. unfold write_summary, summary_lines.
  destruct (mem_section _ _) as [l1|]; cbn [bind]; [| by eexists].
  destruct (cpu_section _ _ _) as [l2|]; cbn [bind]; [| by eexists].
  destruct (ctemps_section _ _) as [l3|]; cbn [bind]; [| by eexists].
  destruct (watts_section _ _) as [l4|]; cbn [bind]; [| by eexists].
  destruct (fans_section _ _) as [l5|]; cbn [bind]; [| by eexists].
  destruct (Hgpus l5) as [e ->]. cbn [bind]. by eexists.
Qed.

(** X9: a GPU category that is not flagged empty and whose first record
    names a device: the row that names the device is the first row handed
    to the renderer, the renderer raises [IndexError] on it, and
    [write_summary] raises without writing the report. *)
Theorem gpus_section_named_device (output_data : OutputData) (y : Params)
    (ys : list Params) (fs : gmap string string) :
  is_empty (GPUData.base (gpus output_data)) = false ->
  records (GPUData.base (gpus output_data)) = y :: ys ->
  p1 y <> "" ->
  (forall lines,
     gpus_section (gpus output_data) lines = Raise IndexError) /\
  exists e, write_summary output_data fs = Raise e.
Proof.
  intros Hflag Hrecs Hname.
  assert (Hsec : forall lines,
            gpus_section (gpus output_data) lines = Raise IndexError).
  { intros lines. rewrite gpus_section_groups, Hflag.
    unfold gpu_groups. rewrite Hrecs.
    destruct (runs_head p0 y ys) as (r & rs & ->).
    cbn [gpu_groups_from emit_groups for_each g_title g_rows g_headers
         run_key gpu_run_rows].
    rewrite bool_decide_eq_true_2 by (intros Heq; by apply Hname).
    reflexivity. }
  split; [exact Hsec |].
  apply write_summary_raises_in_gpus. intros lines. eexists. apply Hsec.
Qed.

Lemma gpus_section_named_device_witness :
  is_empty (GPUData.base (gpus sample_report)) = false /\
  records (GPUData.base (gpus sample_report)) =
    [sample_key "nvidia" "RTX 4070" "temperature";
     sample_key "nvidia" "RTX 4070" "power"] /\
  gpus_section (gpus sample_report) ["Summary:"] = Raise IndexError /\
  exists e, write_summary sample_report ∅ = Raise e.
Proof.
  assert (Hname : p1 (sample_key "nvidia" "RTX 4070" "temperature") <> "")
    by discriminate.
  destruct (gpus_section_named_device sample_report
              (sample_key "nvidia" "RTX 4070" "temperature")
              [sample_key "nvidia" "RTX 4070" "power"] ∅
              eq_refl eq_refl Hname) as [Hsec Hdoc].
  split; [reflexivity |]. split; [reflexivity |].
  split; [exact (Hsec ["Summary:"]) | exact Hdoc].
Defined.

(** X10: a GPU category that is not flagged empty and yields no record: the
    title of the last group reads the local [driver_version], which only
    the loop body assigns, so the section raises [UnboundLocalError] and
    [write_summary] raises without writing the report. *)
Theorem gpus_section_no_records (output_data : OutputData)
    (fs : gmap string string) :
  is_empty (GPUData.base (gpus output_data)) = false ->
  records (GPUData.base (gpus output_data)) = [] ->
  (forall lines,
     gpus_section (gpus output_data) lines = Raise UnboundLocalError) /\
  exists e, write_summary output_data fs = Raise e.
Proof.
  intros Hflag Hrecs.
  assert (Hsec : forall lines,
            gpus_section (gpus output_data) lines
            = Raise UnboundLocalError).
  { intros lines. by rewrite gpus_section_groups, Hflag, Hrecs. }
  split; [exact Hsec |].
  apply write_summary_raises_in_gpus. intros lines. eexists. apply Hsec.
Qed.

Lemma gpus_section_no_records_witness :
  is_empty (GPUData.base (gpus sample_report_idle_gpu)) = false /\
  records (GPUData.base (gpus sample_report_idle_gpu)) = [] /\
  gpus_section (gpus sample_report_idle_gpu) ["Summary:"] =
    Raise UnboundLocalError /\
  exists e, write_summary sample_report_idle_gpu ∅ = Raise e.
Proof.
  destruct (gpus_section_no_records sample_report_idle_gpu ∅
              eq_refl eq_refl) as [Hsec Hdoc].
  split; [reflexivity |]. split; [reflexivity |].
  split; [exact (Hsec ["Summary:"]) | exact Hdoc].
Defined.

(** X11: the titles of the GPU groups, one group per run of vendors: a group
    that is followed by another is titled by the bare vendor, whatever
    the vendor; the last group is titled by the vendor, followed by the
    driver version when the group is a single record of nvidia. *)
Theorem gpus_section_titles (gpus : GPUData.t) (lines : list string) :
  is_empty (GPUData.base gpus) = false ->
  records (GPUData.base gpus) <> [] ->
  gpus_section gpus lines =
    emit_groups gpu_column_widths gpu_justifications (gpu_groups gpus)
      lines /\
  forall (i : nat) (g : group),
    gpu_groups gpus !! i = Some g ->
    exists r,
      runs p0 (records (GPUData.base gpus)) !! i = Some r /\
      g_title g =
        run_key r +:+
        (if bool_decide (S i = length (runs p0 (records (GPUData.base gpus))))
         then match r with
              | [params] =>
                  if bool_decide (p0 params = "nvidia")
                  then " - " +:+ GPUData.get_driver_version gpus
                  else ""
              | _ => ""
              end
         else "").
Proof.
  intros Hflag Hrecs. split.
  - rewrite gpus_section_groups, Hflag.
    by destruct (records (GPUData.base gpus)).
  - intros i g Hg. unfold gpu_groups in Hg.
    by apply gpu_groups_from_titles in Hg.
Qed.

Lemma gpus_section_titles_witness :
  let gpus :=
    sample_gpus [sample_key "amd" "" "temperature";
                 sample_key "nvidia" "" "temperature"] false in
  is_empty (GPUData.base gpus) = false /\
  records (GPUData.base gpus) <> [] /\
  map g_title (gpu_groups gpus) = ["amd"; "nvidia - 535.183"] /\
  exists r,
    runs p0 (records (GPUData.base gpus)) !! 1 = Some r /\
    "nvidia - 535.183" =
      run_key r +:+
      (if bool_decide
            (2 = length (runs p0 (records (GPUData.base gpus))))
       then match r with
            | [params] =>
                if bool_decide (p0 params = "nvidia")
                then " - " +:+ GPUData.get_driver_version gpus
                else ""
            | _ => ""
            end
       else "").
Proof.
  assert (Hrecs :
    records (GPUData.base
               (sample_gpus [sample_key "amd" "" "temperature";
                             sample_key "nvidia" "" "temperature"] false))
    <> []) by discriminate.
  split; [reflexivity |]. split; [exact Hrecs |]. split; [reflexivity |].
  destruct (gpus_section_titles
              (sample_gpus [sample_key "amd" "" "temperature";
                            sample_key "nvidia" "" "temperature"] false)
              [] eq_refl Hrecs) as [_ Htitles].
  exact (Htitles 1 _ eq_refl).
Defined.

(** ** The document: sections in order *)

(** What a section adds does not depend on the lines before it. *)
Lemma append_formatted_section_frame (title : string)
    (data_rows : list row) (headers : row) (col_widths : list nat)
    (justifications : list just) (lines : list string) :
  append_formatted_section title data_rows headers col_widths
    justifications lines =
  (let! sec :=
     append_formatted_section title data_rows headers col_widths
       justifications [] in
   Ok (lines ++ sec)).
Proof.
  rewrite !append_formatted_section_lines.
  destruct data_rows as [|r rs]; [by rewrite <- (app_nil_r lines) at 1 |].
  by destruct (section_lines title (r :: rs) headers col_widths
                 justifications).
Qed.

Lemma emit_groups_frame (col_widths : list nat)
    (justifications : list just) (gs : list group) (lines : list string) :
  emit_groups col_widths justifications gs lines =
  (let! sec := emit_groups col_widths justifications gs [] in
   Ok (lines ++ sec)).
Proof.
  unfold emit_groups. revert lines.
  induction gs as [|g gs IH]; intros lines; cbn [for_each].
  - cbn [bind]. by rewrite app_nil_r.
  - rewrite append_formatted_section_frame, !bind_assoc.
    destruct (append_formatted_section (g_title g) (g_rows g)
                (g_headers g) col_widths justifications []) as [s|e];
      cbn [bind app]; [| done].
    rewrite (IH (lines ++ s)), (IH s).
    destruct (for_each gs _ []) as [rest|e]; cbn [bind]; [| done].
    by rewrite app_assoc.
Qed.

Lemma mem_section_frame (mem : Monitor) (lines : list string) :
  mem_section mem lines =
  (let! sec := mem_section mem [] in Ok (lines ++ sec)).
Proof. rewrite !mem_section_groups. apply emit_groups_frame. Qed.

Lemma cpu_section_frame (mhz usage : Monitor) (lines : list string) :
  cpu_section mhz usage lines =
  (let! sec := cpu_section mhz usage [] in Ok (lines ++ sec)).
Proof. apply append_formatted_section_frame. Qed.

Lemma ctemps_section_frame (ctemps : Monitor) (lines : list string) :
  ctemps_section ctemps lines =
  (let! sec := ctemps_section ctemps [] in Ok (lines ++ sec)).
Proof.
  rewrite !ctemps_section_rows. destruct (is_empty ctemps).
  - cbn [bind]. by rewrite app_nil_r.
  - apply append_formatted_section_frame.
Qed.

Lemma watts_section_frame (watts : Monitor) (lines : list string) :
  watts_section watts lines =
  (let! sec := watts_section watts [] in Ok (lines ++ sec)).
Proof.
  rewrite !watts_section_rows. destruct (is_empty watts).
  - cbn [bind]. by rewrite app_nil_r.
  - apply append_formatted_section_frame.
Qed.

Lemma fans_section_frame (fans : Monitor) (lines : list string) :
  fans_section fans lines =
  (let! sec := fans_section fans [] in Ok (lines ++ sec)).
Proof.
  rewrite !fans_section_groups. destruct (is_empty fans).
  - cbn [bind]. by rewrite app_nil_r.
  - apply emit_groups_frame.
Qed.

Lemma gpus_section_frame (gpus : GPUData.t) (lines : list string) :
  gpus_section gpus lines =
  (let! sec := gpus_section gpus [] in Ok (lines ++ sec)).
Proof.
  rewrite !gpus_section_groups. destruct (is_empty (GPUData.base gpus)).
  - cbn [bind]. by rewrite app_nil_r.
  - destruct (records (GPUData.base gpus)); [done |].
    apply emit_groups_frame.
Qed.

Lemma drives_section_frame (drives : DriveTemp.t) (lines : list string) :
  drives_section drives lines =
  (let! sec := drives_section drives [] in Ok (lines ++ sec)).
Proof.
  rewrite !drives_section_groups.
  destruct (is_empty (DriveTemp.base drives)).
  - cbn [bind]. by rewrite app_nil_r.
  - apply emit_groups_frame.
Qed.

(** X12: the report is the preamble followed by what the seven sections add,
    in the order memory, CPU frequency and usage, CPU temperature, power,
    fans, GPUs, drives; what a section adds depends on its own category
    only, and the first section that raises decides the error. *)
Theorem write_summary_sections_in_order (output_data : OutputData)
    (fs : gmap string string) :
  write_summary output_data fs =
  (let! s_mem := mem_section (MemUsage.base (mem output_data)) [] in
   let! s_cpu :=
     cpu_section (CPUFreq.base (mhz output_data)) (usage output_data) [] in
   let! s_ctemps := ctemps_section (ctemps output_data) [] in
   let! s_watts := watts_section (watts output_data) [] in
   let! s_fans := fans_section (fans output_data) [] in
   let! s_gpus := gpus_section (gpus output_data) [] in
   let! s_drives := drives_section (drives output_data) [] in
   Ok (<[summary_fn output_data :=
           join (preamble output_data) +:+ join s_mem +:+ join s_cpu
           +:+ join s_ctemps +:+ join s_watts +:+ join s_fans
           +:+ join s_gpus +:+ join s_drives]> fs)).
Proof.
  unfold write_summary, summary_lines.
  rewrite mem_section_frame, !bind_assoc.
  destruct (mem_section _ []) as [s1|]; cbn [bind]; [| done].
  rewrite cpu_section_frame, !bind_assoc.
  destruct (cpu_section _ _ []) as [s2|]; cbn [bind]; [| done].
  rewrite ctemps_section_frame, !bind_assoc.
  destruct (ctemps_section _ []) as [s3|]; cbn [bind]; [| done].
  rewrite watts_section_frame, !bind_assoc.
  destruct (watts_section _ []) as [s4|]; cbn [bind]; [| done].
  rewrite fans_section_frame, !bind_assoc.
  destruct (fans_section _ []) as [s5|]; cbn [bind]; [| done].
  rewrite gpus_section_frame, !bind_assoc.
  destruct (gpus_section _ []) as [s6|]; cbn [bind]; [| done].
  rewrite drives_section_frame, !bind_assoc.
  destruct (drives_section _ []) as [s7|]; cbn [bind]; [| done].
  by rewrite !join_app, !append_assoc.
Qed.

(** ** The document: when it is rendered, and over what it is written *)

(** X13: the rendering of the report never raises on a machine whose GPU
    category is flagged empty, whose fans are flagged empty or all have
    a current value and whose first memory type is not the empty text:
    all seven sections are rendered and [write_summary] reaches the point
    where it opens the file, with the preamble as the first lines. *)
Theorem summary_lines_succeed (output_data : OutputData) :
  (forall y,
     head (records (MemUsage.base (mem output_data))) = Some y ->
     p0 y <> "") ->
  is_empty (fans output_data) = true \/
  Forall (fun params => is_Some (get_current (fans output_data) params))
    (records (fans output_data)) ->
  is_empty (GPUData.base (gpus output_data)) = true ->
  exists lines : list string,
    summary_lines output_data = Ok lines /\
    preamble output_data `prefix_of` lines.
Proof.
  intros Hmem Hfans Hgpus.
  destruct (write_summary_returns output_data ∅ Hmem Hfans Hgpus)
    as (lines & Hlines & _).
  exists lines. split; [done |]. by apply summary_lines_prefix.
Qed.

Lemma summary_lines_succeed_witness :
  (forall y,
     head (records (MemUsage.base (mem sample_report_no_gpu))) = Some y ->
     p0 y <> "") /\
  Forall (fun params =>
            is_Some (get_current (fans sample_report_no_gpu) params))
    (records (fans sample_report_no_gpu)) /\
  is_empty (GPUData.base (gpus sample_report_no_gpu)) = true /\
  exists lines : list string,
    summary_lines sample_report_no_gpu = Ok lines /\
    preamble sample_report_no_gpu `prefix_of` lines.
Proof.
  assert (Hmem : forall y,
            head (records (MemUsage.base (mem sample_report_no_gpu)))
            = Some y -> p0 y <> "").
  { intros y [= <-]. discriminate. }
  assert (Hfans : Forall
            (fun params =>
               is_Some (get_current (fans sample_report_no_gpu) params))
            (records (fans sample_report_no_gpu))).
  { repeat constructor; by eexists. }
  split; [exact Hmem |]. split; [exact Hfans |]. split; [reflexivity |].
  exact (summary_lines_succeed sample_report_no_gpu Hmem
           (or_intror Hfans) eq_refl).
Defined.

(** X14: Mode ['w']: the report replaces whatever the file held, so the result
    does not depend on the old content, and writing the same report again
    changes nothing. *)
Theorem write_summary_overwrites (output_data : OutputData)
    (fs : gmap string string) (old : string) :
  write_summary output_data (<[summary_fn output_data := old]> fs) =
    write_summary output_data fs /\
  forall fs', write_summary output_data fs = Ok fs' ->
              write_summary output_data fs' = Ok fs'.
Proof.
  unfold write_summary.
  destruct (summary_lines output_data) as [lines|e]; cbn [bind];
    [| by split].
  split.
  - by rewrite insert_insert_eq.
  - intros fs' [= <-]. by rewrite insert_insert_eq.
Qed.

(** ** The CSV log over time *)

(** X15: the log only grows: whatever calls follow, for this file or for
    others, a file keeps what it held as the beginning of its content. *)
Theorem csv_log_only_grows (writerow : list value -> string)
    (calls : list OutputData) (fs : gmap string string) (path old : string) :
  fs !! path = Some old ->
  exists suffix : string,
    csv_log writerow calls fs !! path = Some (old +:+ suffix).
Proof.
  revert fs old. induction calls as [|c calls IH]; intros fs old Hold.
  - exists "". by rewrite append_nil_r.
  - change (csv_log writerow (c :: calls) fs)
      with (csv_log writerow calls (write_csv writerow c fs)).
    destruct (decide (csv_fn c = path)) as [<-|Hne].
    + destruct (IH (write_csv writerow c fs)
                  (old +:+ writerow (data c))) as [suffix Hs].
      { by rewrite write_csv_lookup, Hold. }
      exists (writerow (data c) +:+ suffix).
      by rewrite Hs, append_assoc.
    + apply IH. by rewrite write_csv_other.
Qed.

Lemma csv_log_only_grows_witness :
  let fs : gmap string string := {[ "log.csv" := "run,0" +:+ nl ]} in
  let calls := [sample_output_data "other.csv" [VStr "x"];
                sample_output_data "log.csv" [VStr "run"; VNum (NInt 1)]] in
  fs !! "log.csv" = Some ("run,0" +:+ nl) /\
  exists suffix : string,
    csv_log sample_writerow calls fs !! "log.csv" =
    Some (("run,0" +:+ nl) +:+ suffix).
Proof.
  split; [reflexivity |].
  apply (csv_log_only_grows sample_writerow
           [sample_output_data "other.csv" [VStr "x"];
            sample_output_data "log.csv" [VStr "run"; VNum (NInt 1)]]
           {[ "log.csv" := "run,0" +:+ nl ]} "log.csv").
  reflexivity.
Defined.

(** X17: the shorter of the widths and the justifications decides the number
    of fields of a line: the widths, justifications and items beyond that
    number change nothing. *)
Theorem format_line_field_count (items : list value)
    (column_widths : list nat) (justifications : list just) :
  let n := field_count column_widths justifications in
  format_line items column_widths justifications =
  format_line (take n items) (take n column_widths)
    (take n justifications).
Proof. exact (format_line_truncates items column_widths justifications). Qed.

(** ** The CPU section, whatever the lengths of the two collections *)

Lemma format_rows_lookup (data_rows : list row) (col_widths : list nat)
    (justifications : list just) (body : list string) :
  format_rows data_rows col_widths justifications = Ok body ->
  forall (i : nat) (r : row),
    data_rows !! i = Some r ->
    exists line,
      format_line r col_widths justifications = Ok line /\
      body !! i = Some line.
Proof.
  revert body. induction data_rows as [|r0 rs IH]; intros body; simpl.
  - intros _ i r Hi. by rewrite lookup_nil in Hi.
  - destruct (format_line r0 col_widths justifications) as [l|e] eqn:Hl;
      simpl; [| done].
    destruct (format_rows rs col_widths justifications) as [ls|e];
      simpl; [| done].
    intros [= <-] [|i] r Hi; simpl in *.
    + injection Hi as <-. by exists l.
    + by apply (IH ls).
Qed.

(** C6 as stated fails when the two collections differ in length: with
    two frequency records and one usage record the section has one data
    row, so the second core has none. *)
Lemma cpu_section_rows_counterexample :
  let mhz := sample_monitor [sample_key "" "" "Core 0";
                             sample_key "" "" "Core 1"] false in
  let usage := sample_monitor [sample_key "" "" "cpu0"] false in
  length (records mhz) = 2 /\
  length (records usage) = 1 /\
  cpu_data_rows mhz usage =
    [[VStr "Core 0"; VStr " 900:  900"; VStr "1500: 1500";
      VStr "1187.5:1187.5"]] /\
  exists h line,
    cpu_section mhz usage [] = Ok [""; h; line; nl].
Proof.
  split; [reflexivity |]. split; [reflexivity |]. split; [reflexivity |].
  eexists _, _. reflexivity.
Qed.

(** C6, amended: the CPU section is one section without a title and
    never raises.  It has one data row per position that both collections
    have, as many as the shorter collection has records, so one per core
    when both hold one record per core.  The row at a position pairs the
    frequency and the usage records at that position: the label of the
    frequency record, then the texts [usage:frequency] of the minimum, the
    maximum and the mean; and the data line at that position is that row
    formatted. *)
Theorem cpu_section_pairs_records (mhz usage : Monitor)
    (lines : list string) :
  length (cpu_data_rows mhz usage) =
    Nat.min (length (records mhz)) (length (records usage)) /\
  (forall (i : nat) (mhz_params usage_params : Params),
     records mhz !! i = Some mhz_params ->
     records usage !! i = Some usage_params ->
     cpu_data_rows mhz usage !! i =
     Some [VStr (get_label mhz mhz_params);
           VStr (pad JRight 4 (str_number (get_min usage usage_params))
                 +:+ ":" +:+
                 pad JRight 5 (str_number (get_min mhz mhz_params)));
           VStr (pad JRight 4 (str_number (get_max usage usage_params))
                 +:+ ":" +:+
                 pad JRight 5 (str_number (get_max mhz mhz_params)));
           VStr (pad JRight 4 (str_number (get_mean usage usage_params))
                 +:+ ":" +:+
                 pad JRight 5 (str_number (get_mean mhz mhz_params)))]) /\
  exists (h : string) (body : list string),
    format_line cpu_headers cpu_column_widths cpu_justifications = Ok h /\
    format_rows (cpu_data_rows mhz usage) cpu_column_widths
      cpu_justifications = Ok body /\
    length body = length (cpu_data_rows mhz usage) /\
    (forall (i : nat) (r : row),
       cpu_data_rows mhz usage !! i = Some r ->
       exists line,
         format_line r cpu_column_widths cpu_justifications = Ok line /\
         body !! i = Some line) /\
    cpu_section mhz usage lines =
      Ok (match cpu_data_rows mhz usage with
          | [] => lines
          | _ :: _ => lines ++ "" :: h :: body ++ [nl]
          end).
Proof.
  split; [| split].
  - by rewrite cpu_data_rows_zip, length_map, length_zip_with.
  - intros i mp up Hm Hu.
    rewrite cpu_data_rows_zip, list_lookup_fmap.
    assert (Hz : zip (records mhz) (records usage) !! i = Some (mp, up)).
    { apply lookup_zip_with_Some. by exists mp, up. }
    by rewrite Hz.
  - destruct (format_line_ok cpu_headers cpu_column_widths
                cpu_justifications) as [h Hh].
    { simpl. lia. }
    { repeat constructor; by eexists. }
    destruct (format_rows_ok (cpu_data_rows mhz usage) cpu_column_widths
                cpu_justifications) as [body Hbody].
    { rewrite cpu_data_rows_zip. apply Forall_forall.
      intros r [[mp up] [-> _]]%list_elem_of_fmap.
      split; [simpl; lia |]. repeat constructor; by eexists. }
    exists h, body. split; [done |]. split; [done |].
    split; [by eapply format_rows_length |].
    split; [by apply format_rows_lookup |].
    unfold cpu_section. rewrite append_formatted_section_lines.
    destruct (cpu_data_rows mhz usage) as [|r rs]; [done |].
    unfold section_lines. by rewrite Hh, Hbody.
Qed.

Lemma cpu_section_pairs_records_witness :
  let mhz := sample_monitor [sample_key "" "" "Core 0";
                             sample_key "" "" "Core 1"] false in
  let usage := sample_monitor [sample_key "" "" "cpu0";
                               sample_key "" "" "cpu1"] false in
  length (cpu_data_rows mhz usage) = 2 /\
  cpu_data_rows mhz usage !! 1 =
    Some [VStr "Core 1"; VStr " 900:  900"; VStr "1500: 1500";
          VStr "1187.5:1187.5"] /\
  exists (h : string) (body : list string),
    length body = 2 /\
    cpu_section mhz usage ["Summary:"] =
      Ok (["Summary:"] ++ "" :: h :: body ++ [nl]).
Proof.
  destruct (cpu_section_pairs_records
              (sample_monitor [sample_key "" "" "Core 0";
                               sample_key "" "" "Core 1"] false)
              (sample_monitor [sample_key "" "" "cpu0";
                               sample_key "" "" "cpu1"] false)
              ["Summary:"])
    as (Hlen & Hrow & h & body & _ & _ & Hbody & _ & Hsec).
  split; [exact Hlen |].
  split; [exact (Hrow 1 (sample_key "" "" "Core 1")
                   (sample_key "" "" "cpu1") eq_refl eq_refl) |].
  exists h, body. split; [exact Hbody | exact Hsec].
Defined.

(** ** The widths each section is rendered with *)

(** C7, amended: every section is rendered with the fixed widths of
    its category: memory with 15/20/20/20, CPU frequency and usage with
    15/15/15/15, CPU temperature with 15/10/10/10, power with
    10/10/10/10, and fans, GPUs and drives with 15/15/15/15/15. *)
Theorem column_widths_per_category (mem mhz usage ctemps watts fans : Monitor)
    (gpus : GPUData.t) (drives : DriveTemp.t) (lines : list string) :
  mem_section mem lines =
    emit_groups [15; 20; 20; 20] mem_justifications (mem_groups mem)
      lines /\
  cpu_section mhz usage lines =
    append_formatted_section "" (cpu_data_rows mhz usage) cpu_headers
      [15; 15; 15; 15] cpu_justifications lines /\
  ctemps_section ctemps lines =
    (if is_empty ctemps then Ok lines
     else append_formatted_section ""
            (map (stat_row ctemps) (records ctemps))
            ctemps_headers [15; 10; 10; 10] ctemps_justifications lines) /\
  watts_section watts lines =
    (if is_empty watts then Ok lines
     else append_formatted_section ""
            (map (stat_row watts) (records watts))
            watts_headers [10; 10; 10; 10] watts_justifications lines) /\
  fans_section fans lines =
    (if is_empty fans then Ok lines
     else emit_groups [15; 15; 15; 15; 15] fan_justifications
            (fan_groups fans) lines) /\
  gpus_section gpus lines =
    (if is_empty (GPUData.base gpus) then Ok lines
     else match records (GPUData.base gpus) with
          | [] => Raise UnboundLocalError
          | _ :: _ =>
              emit_groups [15; 15; 15; 15; 15] gpu_justifications
                (gpu_groups gpus) lines
          end) /\
  drives_section drives lines =
    (if is_empty (DriveTemp.base drives) then Ok lines
     else emit_groups [15; 15; 15; 15; 15] drive_justifications
            (drive_groups drives) lines).
Proof.
  split; [apply mem_section_groups |].
  split; [reflexivity |].
  split; [apply ctemps_section_rows |].
  split; [apply watts_section_rows |].
  split; [apply fans_section_groups |].
  split; [apply gpus_section_groups | apply drives_section_groups].
Qed.
